(** * ndjson_to_csv: a shallow embedding of the streaming NDJSON to CSV tool

    The development follows [src/ndjson_to_csv.py]: [open_any],
    [write_csv_row] and [main] (with its inner [make_writer]) are
    translated function by function.  Python values are a tagged union,
    floats are IEEE binary64 numbers (the [spec_float] of the standard
    library at precision 53), exceptions are an explicit error type, and
    the output files are explicit state threaded through the loop of
    [main].

    Text.  A [str] is a Rocq [string], one character per code point; the
    model covers text over the code points 0..255.

    Library calls whose result depends on tables or algorithms outside
    the repository ([json.loads], [float] of a [str], [repr] of a finite
    float) are the fields of the interface [PyLib]. *)

From Stdlib Require Import ZArith List String Ascii Lia Bool DecimalString.
From Stdlib Require Import DecimalZ.
From Stdlib Require Import Floats.SpecFloat.
Import ListNotations.

Open Scope list_scope.
Open Scope string_scope.
Open Scope Z_scope.

(** ** Exceptions and fallible computations *)

Inductive exn : Type :=
| ImportError
| OSError
| JSONDecodeError
| RecursionError
| AttributeError
| TypeError
| ValueError
| OverflowError.

Inductive res (A : Type) : Type :=
| Ok (a : A)
| Raise (e : exn).

Arguments Ok {A} a.
Arguments Raise {A} e.

Definition bind {A B : Type} (m : res A) (k : A -> res B) : res B :=
  match m with
  | Ok a => k a
  | Raise e => Raise e
  end.

Notation "x <- m ;; k" := (bind m (fun x => k))
  (at level 61, m at next level, right associativity).

(** ** Text *)

Definition dquote : ascii := ascii_of_nat 34.
Definition squote : ascii := ascii_of_nat 39.
Definition backslash : ascii := ascii_of_nat 92.
Definition newline : ascii := ascii_of_nat 10.

Definition str1 (c : ascii) : string := String c EmptyString.

Definition code (c : ascii) : Z := Z.of_N (N_of_ascii c).

(** [c.isspace()] for a code point below 256. *)
Definition isspace (c : ascii) : bool :=
  let n := code c in
  ((9 <=? n) && (n <=? 13)) || ((28 <=? n) && (n <=? 32))
  || (n =? 133) || (n =? 160).

Fixpoint lstrip (s : string) : string :=
  match s with
  | EmptyString => EmptyString
  | String c s' => if isspace c then lstrip s' else s
  end.

Fixpoint rstrip (s : string) : string :=
  match s with
  | EmptyString => EmptyString
  | String c s' =>
      match rstrip s' with
      | EmptyString => if isspace c then EmptyString else str1 c
      | r => String c r
      end
  end.

(** [s.strip()] *)
Definition strip (s : string) : string := rstrip (lstrip s).

(** Truth value of a [str]: the empty string is falsy. *)
Definition str_truthy (s : string) : bool :=
  match s with
  | EmptyString => false
  | String _ _ => true
  end.

(** [c.lower()] for a code point below 256: A..Z, and the upper-case
    letters 0xC0..0xDE other than the multiplication sign 0xD7. *)
Definition lower_char (c : ascii) : ascii :=
  let n := code c in
  if ((65 <=? n) && (n <=? 90))
     || ((192 <=? n) && (n <=? 222) && negb (n =? 215))
  then ascii_of_N (Z.to_N (n + 32))
  else c.

(** [s.lower()] *)
Fixpoint lower (s : string) : string :=
  match s with
  | EmptyString => EmptyString
  | String c s' => String (lower_char c) (lower s')
  end.

(** [text.startswith(p)] *)
Fixpoint startswith (p text : string) : bool :=
  match p, text with
  | EmptyString, _ => true
  | String a p', String b t' => Ascii.eqb a b && startswith p' t'
  | String _ _, EmptyString => false
  end.

(** [term in text] for two strs *)
Fixpoint str_in (term text : string) : bool :=
  startswith term text
  || match text with
     | EmptyString => false
     | String _ t' => str_in term t'
     end.

(** [s[i:]] and [s[:i]] for [0 <= i] *)
Definition drop (i : Z) (s : string) : string :=
  String.substring (Z.to_nat i) (String.length s - Z.to_nat i)%nat s.

Definition take (i : Z) (s : string) : string :=
  String.substring 0 (Z.to_nat i) s.

(** [s.endswith(suffix)]: some tail of [s] is [suffix] *)
Fixpoint endswith (s suffix : string) : bool :=
  String.eqb s suffix
  || match s with
     | EmptyString => false
     | String _ s' => endswith s' suffix
     end.

(** [s.rfind(c)] for a one-character [c]: the last index, or -1 *)
Fixpoint rfind_from (i : Z) (c : ascii) (s : string) : Z :=
  match s with
  | EmptyString => -1
  | String a s' =>
      let later := rfind_from (i + 1) c s' in
      if 0 <=? later then later
      else if Ascii.eqb a c then i else -1
  end.

Definition rfind (c : ascii) (s : string) : Z := rfind_from 0 c s.

Fixpoint all_chars (p : ascii -> bool) (s : string) : bool :=
  match s with
  | EmptyString => true
  | String c s' => p c && all_chars p s'
  end.

Fixpoint join (sep : string) (l : list string) : string :=
  match l with
  | [] => EmptyString
  | [x] => x
  | x :: rest => x ++ sep ++ join sep rest
  end.

(** Decimal text of an integer, as [str(n)] and the [d] format give it. *)
Definition string_of_Z (z : Z) : string :=
  NilZero.string_of_int (Z.to_int z).

Fixpoint zeros (n : nat) : string :=
  match n with
  | O => EmptyString
  | S n' => String "0" (zeros n')
  end.

(** [format(n, "0Wd")]: sign first, then zeros up to the width [w]. *)
Definition format_0d (w : nat) (n : Z) : string :=
  let digits := string_of_Z (Z.abs n) in
  let sign := if n <? 0 then "-" else "" in
  sign ++ zeros (w - String.length sign - String.length digits) ++ digits.

(** ** Paths: [os.path.splitext] *)

Inductive platform : Type := Posix | Nt.

(** [genericpath._splitext(p, sep, altsep, extsep)] *)
Definition splitext_generic (p : string) (sep : ascii)
    (altsep : option ascii) (extsep : ascii) : string * string :=
  let sepIndex := rfind sep p in
  let sepIndex :=
    match altsep with
    | Some a => Z.max sepIndex (rfind a p)
    | None => sepIndex
    end in
  let dotIndex := rfind extsep p in
  if sepIndex <? dotIndex then
    (* skip all leading dots *)
    let between :=
      String.substring (Z.to_nat (sepIndex + 1))
        (Z.to_nat (dotIndex - (sepIndex + 1))) p in
    if all_chars (fun c => Ascii.eqb c extsep) between
    then (p, EmptyString)
    else (take dotIndex p, drop dotIndex p)
  else (p, EmptyString).

Definition splitext (os : platform) (p : string) : string * string :=
  match os with
  | Posix => splitext_generic p "/" None "."
  | Nt => splitext_generic p backslash (Some "/"%char) "."
  end.

(** ** Floats: IEEE binary64 *)

Definition float : Type := spec_float.

Definition f64_of_Z (z : Z) : float := binary_normalize 53 1024 z 0 false.

(** [float(n)] for an int: correctly rounded, [OverflowError] beyond the
    range of a double. *)
Definition float_of_int (z : Z) : res float :=
  match f64_of_Z z with
  | S754_infinity _ => Raise OverflowError
  | f => Ok f
  end.

Definition flt (a b : float) : bool := SFltb a b.   (* a < b *)
Definition fle (a b : float) : bool := SFleb a b.   (* a <= b *)
Definition fdiv (a b : float) : float := SFdiv 53 1024 a b.
Definition fmul (a b : float) : float := SFmul 53 1024 a b.

Definition is_nan (f : float) : bool :=
  match f with
  | S754_nan => true
  | _ => false
  end.

(** ** Python values, as [json.loads] builds them *)

#[warnings="-register-all"]
Inductive value : Type :=
| VNone
| VBool (b : bool)
| VInt (z : Z)
| VFloat (f : float)
| VStr (s : string)
| VList (l : list value)
| VDict (d : list (string * value)).

(** The library functions the program calls and the repository does not
    define.  [json_loads] raises [JSONDecodeError] on a malformed
    document; [float_of_str] is [float(s)] for a str; [float_repr] is
    [repr(x)] for a finite non-zero float. *)
Class PyLib : Type := {
  json_loads : string -> res value;
  float_of_str : string -> res float;
  float_repr : float -> string
}.

(** [bool(v)] *)
Definition truthy (v : value) : bool :=
  match v with
  | VNone => false
  | VBool b => b
  | VInt z => negb (z =? 0)
  | VFloat (S754_zero _) => false
  | VFloat _ => true
  | VStr s => str_truthy s
  | VList [] => false
  | VList (_ :: _) => true
  | VDict [] => false
  | VDict (_ :: _) => true
  end.

(** [a or b] *)
Definition py_or (a b : value) : value := if truthy a then a else b.

(** [a + b] where one of the operands is a str, as at both uses in
    [main]: the sum exists only for two strs. *)
Definition py_add (a b : value) : res string :=
  match a, b with
  | VStr x, VStr y => Ok (x ++ y)
  | _, _ => Raise TypeError
  end.

Fixpoint assoc (k : string) (d : list (string * value)) : option value :=
  match d with
  | [] => None
  | (k', v) :: d' => if String.eqb k k' then Some v else assoc k d'
  end.

(** [obj.get(k)], also [obj.get(k, None)]: only a dict has the method. *)
Definition py_get (obj : value) (k : string) : res value :=
  match obj with
  | VDict d =>
      match assoc k d with
      | Some v => Ok v
      | None => Ok VNone
      end
  | _ => Raise AttributeError
  end.

Definition is_dict (v : value) : bool :=
  match v with
  | VDict _ => true
  | _ => false
  end.

(** [isinstance(val, (dict, list))] *)
Definition is_nested (v : value) : bool :=
  match v with
  | VList _ | VDict _ => true
  | _ => false
  end.

Definition hex_digit (n : Z) : ascii :=
  if n <? 10 then ascii_of_N (Z.to_N (48 + n))
  else ascii_of_N (Z.to_N (87 + n)).

Definition hex2 (c : ascii) : string :=
  String (hex_digit (code c / 16)) (str1 (hex_digit (code c mod 16))).

(** [c.isprintable()] for a code point below 256 *)
Definition isprintable (c : ascii) : bool :=
  let n := code c in
  ((32 <=? n) && (n <=? 126)) || ((161 <=? n) && negb (n =? 173)).

Fixpoint has_char (c : ascii) (s : string) : bool :=
  match s with
  | EmptyString => false
  | String a s' => Ascii.eqb a c || has_char c s'
  end.

Fixpoint repr_chars (quote : ascii) (s : string) : string :=
  match s with
  | EmptyString => EmptyString
  | String c s' =>
      let n := code c in
      (if Ascii.eqb c quote || Ascii.eqb c backslash
       then String backslash (str1 c)
       else if n =? 9 then String backslash "t"
       else if n =? 10 then String backslash "n"
       else if n =? 13 then String backslash "r"
       else if isprintable c then str1 c
       else String backslash (String "x" (hex2 c)))
      ++ repr_chars quote s'
  end.

(** [repr(s)] for a str *)
Definition repr_str (s : string) : string :=
  let quote :=
    if has_char squote s && negb (has_char dquote s) then dquote
    else squote in
  String quote (repr_chars quote s) ++ str1 quote.

(** [json.encoder.encode_basestring(s)], the encoder that
    [ensure_ascii=False] selects *)
Fixpoint json_escape (s : string) : string :=
  match s with
  | EmptyString => EmptyString
  | String c s' =>
      let n := code c in
      (if Ascii.eqb c dquote || Ascii.eqb c backslash
       then String backslash (str1 c)
       else if n =? 8 then String backslash "b"
       else if n =? 12 then String backslash "f"
       else if n =? 10 then String backslash "n"
       else if n =? 13 then String backslash "r"
       else if n =? 9 then String backslash "t"
       else if n <? 32 then String backslash ("u00" ++ hex2 c)
       else str1 c)
      ++ json_escape s'
  end.

Definition json_str (s : string) : string :=
  String dquote (json_escape s) ++ str1 dquote.

Section Stringification.
Context {L : PyLib}.

(** [repr(x)] for a float *)
Definition repr_float (f : float) : string :=
  match f with
  | S754_nan => "nan"
  | S754_infinity false => "inf"
  | S754_infinity true => "-inf"
  | S754_zero false => "0.0"
  | S754_zero true => "-0.0"
  | S754_finite _ _ _ => float_repr f
  end.

(** [repr(v)] *)
Fixpoint py_repr (v : value) : string :=
  match v with
  | VNone => "None"
  | VBool true => "True"
  | VBool false => "False"
  | VInt z => string_of_Z z
  | VFloat f => repr_float f
  | VStr s => repr_str s
  | VList l => "[" ++ join ", " (map py_repr l) ++ "]"
  | VDict d =>
      "{" ++ join ", "
               (map (fun kv => match kv with
                               | (k, x) => repr_str k ++ ": " ++ py_repr x
                               end) d)
          ++ "}"
  end.

(** [str(v)] *)
Definition py_str (v : value) : string :=
  match v with
  | VStr s => s
  | _ => py_repr v
  end.

(** How [json.dumps] writes a float (with the default [allow_nan]). *)
Definition json_float (f : float) : string :=
  match f with
  | S754_nan => "NaN"
  | S754_infinity false => "Infinity"
  | S754_infinity true => "-Infinity"
  | _ => repr_float f
  end.

(** [json.dumps(v, ensure_ascii=False)], with the default separators *)
Fixpoint json_dumps (v : value) : string :=
  match v with
  | VNone => "null"
  | VBool true => "true"
  | VBool false => "false"
  | VInt z => string_of_Z z
  | VFloat f => json_float f
  | VStr s => json_str s
  | VList l => "[" ++ join ", " (map json_dumps l) ++ "]"
  | VDict d =>
      "{" ++ join ", "
               (map (fun kv => match kv with
                               | (k, x) => json_str k ++ ": " ++ json_dumps x
                               end) d)
          ++ "}"
  end.

(** [float(v)] *)
Definition py_float (v : value) : res float :=
  match v with
  | VNone => Raise TypeError
  | VBool b => Ok (f64_of_Z (if b then 1 else 0))
  | VInt z => float_of_int z
  | VFloat f => Ok f
  | VStr s => float_of_str s
  | VList _ => Raise TypeError
  | VDict _ => Raise TypeError
  end.
End Stringification.

(** ** Timestamps: [datetime.utcfromtimestamp] and [strftime] *)

Record datetime : Type := {
  year : Z; month : Z; day : Z;
  hour : Z; minute : Z; second : Z; microsecond : Z
}.

Definition signed (s : bool) (z : Z) : Z := if s then - z else z.

(** [modf]: the integral part and the fractional part, both with the
    sign of the argument.  The fractional part of a double is a double. *)
Definition modf (f : float) : Z * float :=
  match f with
  | S754_finite s m e =>
      if 0 <=? e then (signed s (Z.pos m * 2 ^ e), S754_zero s)
      else
        let d := 2 ^ (- e) in
        (signed s (Z.pos m / d),
         binary_normalize 53 1024 (signed s (Z.pos m mod d)) e s)
  | _ => (0, f)
  end.

(** The integer nearest to a finite float, halves to the even one. *)
Definition round_half_even (f : float) : Z :=
  match f with
  | S754_finite s m e =>
      if 0 <=? e then signed s (Z.pos m * 2 ^ e)
      else
        let d := 2 ^ (- e) in
        let q := Z.pos m / d in
        let r := Z.pos m mod d in
        signed s
          match 2 * r ?= d with
          | Lt => q
          | Gt => q + 1
          | Eq => if Z.even q then q else q + 1
          end
  | _ => 0
  end.

(** The conversion of a float timestamp to whole seconds and
    microseconds, the microseconds rounded half to even. *)
Definition timeval_of_float (ts : float) : res (Z * Z) :=
  match ts with
  | S754_nan => Raise ValueError
  | S754_infinity _ => Raise OverflowError
  | _ =>
      let (intpart, floatpart) := modf ts in
      let us := round_half_even (fmul floatpart (f64_of_Z 1000000)) in
      let (sec, us) :=
        if 1000000 <=? us then (intpart + 1, us - 1000000)
        else if us <? 0 then (intpart - 1, us + 1000000)
        else (intpart, us) in
      if (- 2 ^ 63 <=? sec) && (sec <? 2 ^ 63) then Ok (sec, us)
      else Raise OverflowError
  end.

(** The date of day [doe] of a 400-year era that starts on a first of
    March: the year within the era, the month and the day. *)
Definition date_in_era (doe : Z) : Z * Z * Z :=
  let yoe := (doe - doe / 1460 + doe / 36524 - doe / 146096) / 365 in
  let doy := doe - (365 * yoe + yoe / 4 - yoe / 100) in
  let mp := (5 * doy + 2) / 153 in
  let d := doy - (153 * mp + 2) / 5 + 1 in
  let m := if mp <? 10 then mp + 3 else mp - 9 in
  (if m <=? 2 then yoe + 1 else yoe, m, d).

(** The civil date of a day number counted from 1970-01-01. *)
Definition civil_from_days (days : Z) : Z * Z * Z :=
  let z := days + 719468 in
  let '(y, m, d) := date_in_era (z mod 146097) in
  (y + z / 146097 * 400, m, d).

(** [datetime.datetime.utcfromtimestamp(ts)] over the C library of a
    POSIX system: the years 1 to 9999.  Where the C library also turns
    down the times before 1970 the call fails on more arguments; its
    caller treats every failure alike. *)
Definition utcfromtimestamp (ts : float) : res datetime :=
  tv <- timeval_of_float ts ;;
  let (sec, us) := tv in
  let '(y, m, d) := civil_from_days (sec / 86400) in
  let rem := sec mod 86400 in
  if (1 <=? y) && (y <=? 9999) then
    Ok {| year := y; month := m; day := d;
          hour := rem / 3600; minute := rem mod 3600 / 60;
          second := rem mod 60; microsecond := us |}
  else Raise ValueError.

(** [dt.strftime("%Y-%m-%dT%H:%M:%SZ")], the year on four digits, as the
    library documents [%Y] *)
Definition strftime_iso (dt : datetime) : string :=
  format_0d 4 (year dt) ++ "-" ++ format_0d 2 (month dt) ++ "-"
  ++ format_0d 2 (day dt) ++ "T" ++ format_0d 2 (hour dt) ++ ":"
  ++ format_0d 2 (minute dt) ++ ":" ++ format_0d 2 (second dt) ++ "Z".

(** ** The environment of a run *)

Inductive codec : Type := Plain | Gzip | Zstd.

Inductive io_event : Type :=
| Stderr (msg : string)                 (* a line printed to sys.stderr *)
| OpenFile (path : string) (c : codec)  (* the input file is opened *).

(** What a run finds outside the program: the flavour of [os.path],
    whether [import zstandard] succeeds, and for each path and codec the
    decoded lines of the file ([None] when the path cannot be opened).
    The decoders are black boxes; a stream that opens is read to its
    end, and the output files can be created and written. *)
Record world : Type := {
  os_name : platform;
  zstandard_installed : bool;
  file_lines : codec -> string -> option (list string)
}.

(** ** [open_any] *)

Definition open_as (w : world) (c : codec) (path : string)
  : list io_event * res (list string) :=
  match file_lines w c path with
  | Some lines => ([OpenFile path c], Ok lines)
  | None => ([], Raise OSError)
  end.

(** The effects of the call, in order, and the stream of decoded lines
    it returns or the exception it raises. *)
Definition open_any (w : world) (path : string)
  : list io_event * res (list string) :=
  let lower := lower path in
  if endswith lower ".gz" then open_as w Gzip path
  else if endswith lower ".zst" then
    if zstandard_installed w then open_as w Zstd path
    else
      ([Stderr "ERROR: .zst file detected but the 'zstandard' package is not installed.";
        Stderr "Install it with:  pip install zstandard"],
       Raise ImportError)
  else (* Plain text *) open_as w Plain path.

(** ** [write_csv_row] *)

(** An open CSV file: its path and the rows written so far. *)
Record sink : Type := {
  sink_path : string;
  sink_rows : list (list string)
}.

(** [writer.writerow(row)] *)
Definition writerow (w : sink) (row : list string) : sink :=
  {| sink_path := sink_path w; sink_rows := (sink_rows w ++ [row])%list |}.

Definition mem (f : string) (l : list string) : bool :=
  existsb (String.eqb f) l.

Section Rows.
Context {L : PyLib}.

(** The [try] block of the datetime branch. *)
Definition iso_of (val : value) : res string :=
  ts <- py_float val ;;
  (* Handle both seconds and milliseconds *)
  let ts := if flt (f64_of_Z 10000000000) ts (* likely ms *)
            then fdiv ts (f64_of_Z 1000) else ts in
  dt <- utcfromtimestamp ts ;;
  Ok (strftime_iso dt).

(** One pass of the loop body: the cell appended for the field [f]. *)
Definition cell (obj : value) (datetime_fields : list string) (f : string)
  : res string :=
  val <- py_get obj f ;;
  match val with
  | VNone => Ok ""
  | _ =>
      if mem f datetime_fields then
        match iso_of val with
        | Ok iso => Ok iso
        | Raise _ => Ok (py_str val)    (* except Exception *)
        end
      else if is_nested val then Ok (json_dumps val)
      else Ok (py_str val)
  end.

Fixpoint build_row (obj : value) (datetime_fields : list string)
    (fields row : list string) : res (list string) :=
  match fields with
  | [] => Ok row
  | f :: rest =>
      c <- cell obj datetime_fields f ;;
      build_row obj datetime_fields rest (row ++ [c])%list
  end.

Definition write_csv_row (writer : sink) (fields : list string)
    (obj : value) (datetime_fields : list string) : res sink :=
  row <- build_row obj datetime_fields fields [] ;;
  Ok (writerow writer row).
End Rows.

(** ** [main] *)

(** The parsed command line. *)
Record args : Type := {
  input : string;
  output : string;
  fields : list string;
  as_datetime : list string;
  contains : list string;
  min_utc : option float;
  max_utc : option float;
  created_field : string;
  max_rows_per_file : Z
}.

(** The variables of [main] that the loop updates, and the files the run
    has closed so far, oldest first.  [out_file] stands for the three
    names [out_file], [writer] and [current_path] of the one open
    output. *)
Record state : Type := {
  closed : list sink;
  out_file : sink;
  rows_in_current : Z;
  part_idx : option Z;
  total : Z;
  kept : Z
}.

(** What a run leaves behind: the variables at its end, the exception
    that ended it if any, the effects of opening the input, and the
    counts of the final [Done.] line, printed only by a run that was not
    interrupted. *)
Record run : Type := {
  final : state;
  raised : option exn;
  events : list io_event;
  report : option (Z * Z)
}.

(** Every file of a run, in order of creation; the [finally] block has
    closed the last one. *)
Definition files (r : run) : list sink :=
  (closed (final r) ++ [out_file (final r)])%list.

Definition make_writer (os : platform) (a : args) (idx : option Z) : sink :=
  let csv_path :=
    match idx with
    | None => output a
    | Some idx =>
        let (base, ext) := splitext os (output a) in
        let ext := if str_truthy ext then ext else ".csv" in
        base ++ "_part" ++ format_0d 4 idx ++ ext
    end in
  {| sink_path := csv_path; sink_rows := [fields a] |}.

Section Driver.
Context {L : PyLib}.

(** The containment filter, for the lower-cased terms [terms]. *)
Definition passes_contains (terms : list string) (obj : value) : res bool :=
  match terms with
  | [] => Ok true
  | _ :: _ =>
      body <- py_get obj "body" ;;
      left <- py_add (py_or body (VStr "")) (VStr " ") ;;
      title <- py_get obj "title" ;;
      both <- py_add (VStr left) (py_or title (VStr "")) ;;
      let text := lower both in
      Ok (existsb (fun term => str_in term text) terms)
  end.

(** The time filter. *)
Definition passes_time (a : args) (obj : value) : res bool :=
  match min_utc a, max_utc a with
  | None, None => Ok true
  | _, _ =>
      ts <- py_get obj (created_field a) ;;
      match py_float ts with
      | Raise _ => Ok false               (* ts = None *)
      | Ok ts =>
          if match min_utc a with
             | Some lo => flt ts lo
             | None => false
             end
          then Ok false
          else if match max_utc a with
                  | Some hi => flt hi ts
                  | None => false
                  end
          then Ok false
          else Ok true
      end
  end.

(** Both filters, in the order of the loop body. *)
Definition passes (a : args) (terms : list string) (obj : value) : res bool :=
  c <- passes_contains terms obj ;;
  if c then passes_time a obj else Ok false.

Definition count_line (st : state) : state :=
  {| closed := closed st; out_file := out_file st;
     rows_in_current := rows_in_current st; part_idx := part_idx st;
     total := total st + 1; kept := kept st |}.

Definition count_row (st : state) (w : sink) : state :=
  {| closed := closed st; out_file := w;
     rows_in_current := rows_in_current st + 1; part_idx := part_idx st;
     total := total st; kept := kept st + 1 |}.

(** Rotate if splitting *)
Definition rotate (os : platform) (a : args) (st : state) : state :=
  if (0 <? max_rows_per_file a)
     && (max_rows_per_file a <=? rows_in_current st)
  then
    let idx :=
      match part_idx st with
      | Some i => if i =? 0 then 0 else i
      | None => 0
      end + 1 in
    {| closed := (closed st ++ [out_file st])%list;
       out_file := make_writer os a (Some idx);
       rows_in_current := 0; part_idx := Some idx;
       total := total st; kept := kept st |}
  else st.

(** One iteration of [for line in fin]: the variables after it, and the
    exception that left the loop, if one did. *)
Definition iteration (os : platform) (a : args)
    (terms datetime_fields : list string) (st : state) (line : string)
  : state * option exn :=
  let st := count_line st in
  if negb (str_truthy (strip line)) then (st, None)
  else
    match json_loads line with
    | Raise JSONDecodeError => (st, None)      (* Skip bad JSON line *)
    | Raise e => (st, Some e)
    | Ok obj =>
        match passes a terms obj with
        | Raise e => (st, Some e)
        | Ok false => (st, None)
        | Ok true =>
            match write_csv_row (out_file st) (fields a) obj datetime_fields with
            | Raise e => (st, Some e)
            | Ok w => (rotate os a (count_row st w), None)
            end
        end
    end.

Fixpoint loop (os : platform) (a : args) (terms datetime_fields : list string)
    (st : state) (lines : list string) : state * option exn :=
  match lines with
  | [] => (st, None)
  | line :: rest =>
      match iteration os a terms datetime_fields st line with
      | (st', None) => loop os a terms datetime_fields st' rest
      | (st', Some e) => (st', Some e)
      end
  end.

Definition initial (os : platform) (a : args) : state :=
  {| closed := [];
     out_file := make_writer os a
                   (if max_rows_per_file a <=? 0 then None else Some 1);
     rows_in_current := 0;
     part_idx := if 0 <? max_rows_per_file a then Some 1 else None;
     total := 0; kept := 0 |}.

Definition main (w : world) (a : args) : run :=
  let terms := map lower (contains a) in
  let datetime_fields := nodup string_dec (as_datetime a) in
  let st0 := initial (os_name w) a in
  match open_any w (input a) with
  | (evs, Raise e) =>
      {| final := st0; raised := Some e; events := evs; report := None |}
  | (evs, Ok fin) =>
      match loop (os_name w) a terms datetime_fields st0 fin with
      | (st, None) =>
          {| final := st; raised := None; events := evs;
             report := Some (total st, kept st) |}
      | (st, Some e) =>
          {| final := st; raised := Some e; events := evs; report := None |}
      end
  end.
End Driver.

(** The defaults of the argument parser, for an input and an output path. *)
Definition default_args (inp out : string) : args :=
  {| input := inp; output := out;
     fields := ["id"; "author"; "body"; "score"; "created_utc"];
     as_datetime := []; contains := [];
     min_utc := None; max_utc := None;
     created_field := "created_utc";
     max_rows_per_file := 0 |}.

(** ** Notions of the specification *)

(** A blank line: nothing but whitespace. *)
Definition blank (line : string) : bool := all_chars isspace line.

(** The data rows of a file: what follows its first row. *)
Definition data_rows (s : sink) : list (list string) := tl (sink_rows s).

Definition all_data_rows (r : run) : list (list string) :=
  flat_map data_rows (files r).

(** The data rows in the files of a run in progress. *)
Definition rows_so_far (st : state) : list (list string) :=
  flat_map data_rows (closed st ++ [out_file st])%list.

Definition count (p : string -> bool) (lines : list string) : Z :=
  Z.of_nat (List.length (filter p lines)).

(** The path of part [k] of a rotated output. *)
Definition part_path (os : platform) (out : string) (k : Z) : string :=
  let base := fst (splitext os out) in
  let ext := snd (splitext os out) in
  base ++ "_part" ++ format_0d 4 k
       ++ (if String.eqb ext "" then ".csv" else ext).

(** [1; 2; ...; n] *)
Definition parts (n : nat) : list Z := map (fun i => Z.of_nat i + 1) (seq 0 n).

(** The body or title of a record as text: empty when the key is
    missing or its value is falsy, undefined for any other value that is
    not a str. *)
Definition text_or_empty (d : list (string * value)) (k : string)
  : option string :=
  match assoc k d with
  | None => Some ""
  | Some (VStr s) => Some s
  | Some v => if truthy v then None else Some ""
  end.

(** A text of exactly [w] decimal digits. *)
Definition decimal (w : nat) (s : string) : bool :=
  Nat.eqb (String.length s) w
  && all_chars (fun c => (48 <=? code c) && (code c <=? 57)) s.

(** [p] holds of the [n] integers from [z] on. *)
Fixpoint all_from (n : nat) (z : Z) (p : Z -> bool) : bool :=
  match n with
  | O => true
  | S n' => p z && all_from n' (z + 1) p
  end.

(** [term] occurs in [text], letter case ignored. *)
Definition occurs_ignoring_case (term text : string) : bool :=
  str_in (lower term) (lower text).

Section Counts.
Context {L : PyLib}.

(** A non-blank line that [json.loads] decodes. *)
Definition parseable (line : string) : bool :=
  negb (blank line)
  && match json_loads line with
     | Ok _ => true
     | Raise _ => false
     end.

(** A non-blank line on which [json.loads] raises [JSONDecodeError]. *)
Definition parse_failure (line : string) : bool :=
  negb (blank line)
  && match json_loads line with
     | Raise JSONDecodeError => true
     | _ => false
     end.

(** A non-blank line whose document a filter of [a] turns down. *)
Definition filter_rejected (a : args) (line : string) : bool :=
  negb (blank line)
  && match json_loads line with
     | Ok obj =>
         match passes a (map lower (contains a)) obj with
         | Ok false => true
         | _ => false
         end
     | Raise _ => false
     end.

(** The documents of the non-blank lines that decode, in order. *)
Definition documents (lines : list string) : list value :=
  flat_map (fun line =>
              if blank line then []
              else match json_loads line with
                   | Ok obj => [obj]
                   | Raise _ => []
                   end) lines.

(** The text of one cell of a record given as its key-value pairs. *)
Definition cell_text (d : list (string * value))
    (datetime_fields : list string) (f : string) : string :=
  match assoc f d with
  | None => ""
  | Some VNone => ""
  | Some val =>
      if mem f datetime_fields then
        match iso_of val with
        | Ok iso => iso
        | Raise _ => py_str val
        end
      else if is_nested val then json_dumps val
      else py_str val
  end.

(** The row of a record: one cell per field, in the order of the fields. *)
Definition encode (a : args) (obj : value) : list string :=
  match obj with
  | VDict d => map (cell_text d (nodup string_dec (as_datetime a))) (fields a)
  | _ => []
  end.
End Counts.

(** The library [L] with another decoder in the place of [json.loads]. *)
Definition with_loads (L : PyLib) (loads : string -> res value) : PyLib :=
  {| json_loads := loads;
     float_of_str := @float_of_str L;
     float_repr := @float_repr L |}.

(** A part that rotation has filled: the header and as many data rows as
    the threshold. *)
Definition full_part (a : args) (s : sink) : Prop :=
  exists data,
    sink_rows s = fields a :: data
    /\ Z.of_nat (List.length data) = max_rows_per_file a.

(** The shape of the variables of a run that splits its output. *)
Record rotating (os : platform) (a : args) (st : state) : Prop := {
  rot_idx : part_idx st = Some (Z.of_nat (List.length (closed st)) + 1);
  rot_paths :
    map sink_path (closed st)
    = map (part_path os (output a)) (parts (List.length (closed st)));
  rot_path :
    sink_path (out_file st)
    = part_path os (output a) (Z.of_nat (List.length (closed st)) + 1);
  rot_closed : Forall (full_part a) (closed st);
  rot_open :
    exists data,
      sink_rows (out_file st) = fields a :: data
      /\ Z.of_nat (List.length data) = rows_in_current st;
  rot_room : 0 <= rows_in_current st < max_rows_per_file a;
  rot_kept :
    kept st
    = max_rows_per_file a * Z.of_nat (List.length (closed st))
      + rows_in_current st
}.

(** ** A sample environment for the examples *)

Definition quoted (s : string) : string := String dquote s ++ str1 dquote.

(** A line as the input stream yields it: the text and its line feed. *)
Definition ln (s : string) : string := s ++ str1 newline.

Fixpoint chomp (s : string) : string :=
  match s with
  | EmptyString => EmptyString
  | String c s' =>
      match s' with
      | EmptyString => if Ascii.eqb c newline then EmptyString else s
      | _ => String c (chomp s')
      end
  end.

Definition doc_empty_object : string := "{}".
Definition doc_one : string := "1".
Definition doc_created : string := "{" ++ quoted "created_utc" ++ ": 1600000000}".
Definition doc_created_nan : string := "{" ++ quoted "created_utc" ++ ": NaN}".
Definition doc_body_five : string := "{" ++ quoted "body" ++ ": 5}".
Definition doc_body_gme : string :=
  "{" ++ quoted "body" ++ ": " ++ quoted "To the Moon GME!" ++ "}".
Definition doc_created_list : string :=
  "{" ++ quoted "created_utc" ++ ": [true]}".
Definition doc_truncated : string := "{invalid json".

(** What [json.loads] returns on the lines of the examples; no other
    line is fed to it there. *)
Definition sample_loads (line : string) : res value :=
  let doc := chomp line in
  if String.eqb doc doc_empty_object then Ok (VDict [])
  else if String.eqb doc doc_one then Ok (VInt 1)
  else if String.eqb doc doc_created
       then Ok (VDict [("created_utc", VInt 1600000000)])
  else if String.eqb doc doc_created_nan
       then Ok (VDict [("created_utc", VFloat S754_nan)])
  else if String.eqb doc doc_created_list
       then Ok (VDict [("created_utc", VList [VBool true])])
  else if String.eqb doc doc_body_five then Ok (VDict [("body", VInt 5)])
  else if String.eqb doc doc_body_gme
       then Ok (VDict [("body", VStr "To the Moon GME!")])
  else Raise JSONDecodeError.

Definition is_digit (c : ascii) : bool := (48 <=? code c) && (code c <=? 57).

Fixpoint digits_value (acc : Z) (s : string) : Z :=
  match s with
  | EmptyString => acc
  | String c s' => digits_value (10 * acc + (code c - 48)) s'
  end.

(** [float(s)] on a run of decimal digits and on [nan]; the examples
    convert no other str. *)
Definition sample_float_of_str (s : string) : res float :=
  if String.eqb s "nan" then Ok S754_nan
  else if str_truthy s && all_chars is_digit s
       then Ok (f64_of_Z (digits_value 0 s))
  else Raise ValueError.

(** [repr(x)] on a whole number below 10^16. *)
Definition sample_float_repr (f : float) : string :=
  let (n, frac) := modf f in
  match frac with
  | S754_zero _ => if Z.abs n <? 10 ^ 16 then string_of_Z n ++ ".0" else ""
  | _ => ""
  end.

Definition sample_lib : PyLib :=
  {| json_loads := sample_loads;
     float_of_str := sample_float_of_str;
     float_repr := sample_float_repr |}.

(** A POSIX machine without the zstandard package, on which every input
    path holds the lines [lines]. *)
Definition sample_world (lines : list string) : world :=
  {| os_name := Posix; zstandard_installed := false;
     file_lines := fun _ _ => Some lines |}.

Definition sample_run (a : args) (lines : list string) : run :=
  @main sample_lib (sample_world lines) a.

(** The command lines of the examples: the defaults with one option set. *)
Definition args_contains (terms : list string) : args :=
  {| input := "in.ndjson"; output := "out.csv";
     fields := ["id"; "author"; "body"; "score"; "created_utc"];
     as_datetime := []; contains := terms;
     min_utc := None; max_utc := None;
     created_field := "created_utc";
     max_rows_per_file := 0 |}.

Definition args_min_utc (lo : Z) : args :=
  {| input := "in.ndjson"; output := "out.csv";
     fields := ["id"; "author"; "body"; "score"; "created_utc"];
     as_datetime := []; contains := [];
     min_utc := Some (f64_of_Z lo); max_utc := None;
     created_field := "created_utc";
     max_rows_per_file := 0 |}.

Definition args_max_rows (out : string) (n : Z) : args :=
  {| input := "in.ndjson"; output := out;
     fields := ["id"; "author"; "body"; "score"; "created_utc"];
     as_datetime := []; contains := [];
     min_utc := None; max_utc := None;
     created_field := "created_utc";
     max_rows_per_file := n |}.

Definition args_as_datetime (dts : list string) : args :=
  {| input := "in.ndjson"; output := "out.csv";
     fields := ["id"; "author"; "body"; "score"; "created_utc"];
     as_datetime := dts; contains := [];
     min_utc := None; max_utc := None;
     created_field := "created_utc";
     max_rows_per_file := 0 |}.

(** ** The summary printed at the end of [main] *)

(** The digits of a number, last digit first, with a comma after every
    third digit that has a digit after it. *)
Fixpoint group3 (rev_digits : list ascii) : list ascii :=
  match rev_digits with
  | a :: b :: c :: ((_ :: _) as rest) => a :: b :: c :: ","%char :: group3 rest
  | l => l
  end.

(** [format(n, ",")]: the decimal text with a comma between groups of
    three digits, the sign in front. *)
Definition thousands (n : Z) : string :=
  (if n <? 0 then "-" else "")
  ++ string_of_list_ascii
       (rev (group3 (rev (list_ascii_of_string (string_of_Z (Z.abs n)))))).

(** The lines [main] prints after the [finally] block. *)
Definition summary (os : platform) (a : args) (st : state) : list string :=
  ("Done. Read " ++ thousands (total st) ++ " lines; wrote "
   ++ thousands (kept st) ++ " rows to CSV(s).")
  :: (if match part_idx st with
         | Some i => negb (i =? 0)
         | None => false
         end
      then
        let (base, ext) := splitext os (output a) in
        let ext := if str_truthy ext then ext else ".csv" in
        ["Output files look like: " ++ base ++ "_part0001" ++ ext ++ ", "
         ++ base ++ "_part0002" ++ ext ++ ", ..."]
      else ["Output CSV: " ++ sink_path (out_file st)]).

(** What a run prints on its standard output: the summary, unless an
    exception ended the run before it. *)
Definition stdout (os : platform) (a : args) (r : run) : list string :=
  match raised r with
  | None => summary os a (final r)
  | Some _ => []
  end.

(** ** Further notions *)

(** The command line [a] with another output path and threshold. *)
Definition with_rotation (a : args) (out : string) (n : Z) : args :=
  {| input := input a; output := out; fields := fields a;
     as_datetime := as_datetime a; contains := contains a;
     min_utc := min_utc a; max_utc := max_utc a;
     created_field := created_field a;
     max_rows_per_file := n |}.

(** The command line [a] with other names after [--as-datetime]. *)
Definition with_as_datetime (a : args) (dts : list string) : args :=
  {| input := input a; output := output a; fields := fields a;
     as_datetime := dts; contains := contains a;
     min_utc := min_utc a; max_utc := max_utc a;
     created_field := created_field a;
     max_rows_per_file := max_rows_per_file a |}.

(** Two runs in step: the same counters and the same data rows so far. *)
Definition in_step (st1 st2 : state) : Prop :=
  total st1 = total st2 /\ kept st1 = kept st2
  /\ rows_so_far st1 = rows_so_far st2
  /\ sink_rows (out_file st1) <> [] /\ sink_rows (out_file st2) <> [].

(** The shape of the variables of a run that does not split its output. *)
Definition unsplit (a : args) (st : state) : Prop :=
  closed st = [] /\ part_idx st = None /\ sink_path (out_file st) = output a.

(** The codec that the suffix of a path selects. *)
Definition codec_of (path : string) : codec :=
  if endswith (lower path) ".gz" then Gzip
  else if endswith (lower path) ".zst" then Zstd
  else Plain.

(** A file as a CSV table for the fields of [a]: the header first, and
    as many cells in every row as there are fields. *)
Definition table_of (a : args) (s : sink) : Prop :=
  hd_error (sink_rows s) = Some (fields a)
  /\ Forall (fun row => List.length row = List.length (fields a))
       (sink_rows s).

(** The day number, counted from 1970-01-01, of a civil date. *)
Definition days_from_civil (y m d : Z) : Z :=
  let y := if m <=? 2 then y - 1 else y in
  let era := y / 400 in
  let yoe := y - era * 400 in
  let doy := (153 * (if 2 <? m then m - 3 else m + 9) + 2) / 5 + d - 1 in
  let doe := yoe * 365 + yoe / 4 - yoe / 100 + doy in
  era * 146097 + doe - 719468.

(** The seconds from 1970-01-01T00:00:00 to a moment. *)
Definition epoch_seconds (dt : datetime) : Z :=
  days_from_civil (year dt) (month dt) (day dt) * 86400
  + hour dt * 3600 + minute dt * 60 + second dt.

(** The digits [d] after [n] zeros. *)
Fixpoint leading_zeros (n : nat) (d : Decimal.uint) : Decimal.uint :=
  match n with
  | O => d
  | S n' => Decimal.D0 (leading_zeros n' d)
  end.

(** The number a decimal text denotes, leading zeros allowed. *)
Definition decimal_value (s : string) : option Z :=
  option_map Z.of_int (NilZero.int_of_string s).

(** A text without its commas. *)
Fixpoint without_commas (s : string) : string :=
  match s with
  | EmptyString => EmptyString
  | String c s' =>
      if Ascii.eqb c "," then without_commas s' else String c (without_commas s')
  end.

(** The seconds from 1970-01-01T00:00:00 that a text
    [YYYY-MM-DDTHH:MM:SSZ] denotes, its six numbers read at their
    places. *)
Definition read_iso (s : string) : option Z :=
  match decimal_value (String.substring 0 4 s),
        decimal_value (String.substring 5 2 s),
        decimal_value (String.substring 8 2 s),
        decimal_value (String.substring 11 2 s),
        decimal_value (String.substring 14 2 s),
        decimal_value (String.substring 17 2 s) with
  | Some y, Some m, Some d, Some h, Some mi, Some sec =>
      Some (days_from_civil y m d * 86400 + h * 3600 + mi * 60 + sec)
  | _, _, _, _, _, _ => None
  end.

Section Accepted.
Context {L : PyLib}.

(** A document that both filters of [a] let through. *)
Definition accepts (a : args) (obj : value) : bool :=
  match passes a (map lower (contains a)) obj with
  | Ok true => true
  | _ => false
  end.

(** The documents of the input that the filters let through, in order. *)
Definition accepted (a : args) (lines : list string) : list value :=
  filter (accepts a) (documents lines).
End Accepted.

(** * Properties *)

(** Case analysis on every condition of the goal. *)
Ltac split_ifs :=
  repeat match goal with
         | |- context [if ?b then _ else _] => destruct b
         end.

(** ** Text *)

Lemma lower_eqb (s t : string) :
  String.eqb s t = true -> String.eqb (lower s) (lower t) = true.
Proof.
  intros H. apply String.eqb_eq in H. subst t. apply String.eqb_refl.
Qed.

Lemma endswith_lower (s suffix : string) :
  endswith s suffix = true -> endswith (lower s) (lower suffix) = true.
Proof.
  induction s as [|c s IH]; cbn [endswith]; intros H.
  - rewrite orb_false_r in H. apply (lower_eqb EmptyString) in H.
    cbn [lower endswith] in *. now rewrite H.
  - apply orb_true_iff in H. destruct H as [H|H].
    + apply (lower_eqb (String c s)) in H. cbn [lower endswith] in *.
      now rewrite H.
    + cbn [lower endswith]. rewrite (IH H). apply orb_true_r.
Qed.

Lemma endswith_gz_not_zst (s : string) :
  endswith s ".zst" = true -> endswith s ".gz" = false.
Proof.
  induction s as [|c s IH]; cbn [endswith]; intros H; [discriminate|].
  apply orb_true_iff in H. destruct H as [H|H].
  - apply String.eqb_eq in H. injection H as -> ->. reflexivity.
  - rewrite (IH H), orb_false_r.
    destruct (String.eqb_spec (String c s) ".gz") as [E|E]; [|reflexivity].
    injection E as _ E. subst s. discriminate H.
Qed.

Lemma append_assoc (a b c : string) : (a ++ b) ++ c = a ++ b ++ c.
Proof.
  induction a as [|x a IH]; simpl; [reflexivity|]. now rewrite IH.
Qed.

(** ** The containment filter *)

(** The operand [obj.get(k) or ""] joined to a str on its right. *)
Lemma add_or_empty_l (d : list (string * value)) (k y : string) (v : value) :
  py_get (VDict d) k = Ok v ->
  py_add (py_or v (VStr "")) (VStr y)
  = match text_or_empty d k with
    | Some x => Ok (x ++ y)
    | None => Raise TypeError
    end.
Proof.
  unfold py_get, text_or_empty. destruct (assoc k d) as [u|]; intros E.
  - injection E as <-. unfold py_or.
    destruct u as [|b|z|f|s|l|l]; simpl;
      try reflexivity.
    + destruct b; reflexivity.
    + destruct (z =? 0); reflexivity.
    + destruct f; reflexivity.
    + destruct s; reflexivity.
    + destruct l; reflexivity.
    + destruct l; reflexivity.
  - injection E as <-. reflexivity.
Qed.

(** The same operand joined to a str on its left. *)
Lemma add_or_empty_r (d : list (string * value)) (k x : string) (v : value) :
  py_get (VDict d) k = Ok v ->
  py_add (VStr x) (py_or v (VStr ""))
  = match text_or_empty d k with
    | Some y => Ok (x ++ y)
    | None => Raise TypeError
    end.
Proof.
  unfold py_get, text_or_empty. destruct (assoc k d) as [u|]; intros E.
  - injection E as <-. unfold py_or.
    destruct u as [|b|z|f|s|l|l]; simpl;
      try reflexivity.
    + destruct b; reflexivity.
    + destruct (z =? 0); reflexivity.
    + destruct f; reflexivity.
    + destruct s; reflexivity.
    + destruct l; reflexivity.
    + destruct l; reflexivity.
  - injection E as <-. reflexivity.
Qed.

Lemma py_get_dict (d : list (string * value)) (k : string) :
  exists v, py_get (VDict d) k = Ok v.
Proof.
  unfold py_get. destruct (assoc k d); eauto.
Qed.

(** The filter on a dict, in one equation. *)
Lemma passes_contains_dict (t : string) (ts : list string)
    (d : list (string * value)) :
  passes_contains (t :: ts) (VDict d)
  = match text_or_empty d "body", text_or_empty d "title" with
    | Some body, Some title =>
        Ok (existsb (fun term => str_in term (lower (body ++ " " ++ title)))
              (t :: ts))
    | _, _ => Raise TypeError
    end.
Proof.
  unfold passes_contains.
  destruct (py_get_dict d "body") as [b Hb].
  destruct (py_get_dict d "title") as [c Hc].
  rewrite Hb. cbn [bind]. rewrite (add_or_empty_l d "body" " " b Hb).
  destruct (text_or_empty d "body") as [body|]; cbn [bind].
  - rewrite Hc. cbn [bind]. rewrite (add_or_empty_r d "title" _ c Hc).
    destruct (text_or_empty d "title") as [title|]; cbn [bind].
    + now rewrite append_assoc.
    + reflexivity.
  - destruct (text_or_empty d "title"); reflexivity.
Qed.

Lemma some_term_occurs (raw : list string) (text : string) :
  existsb (fun term => str_in term (lower text)) (map lower raw) = true
  <-> exists term, In term raw /\ occurs_ignoring_case term text = true.
Proof.
  rewrite existsb_exists. split.
  - intros (t & Hin & Ht). apply in_map_iff in Hin.
    destruct Hin as (term & <- & Hin). now exists term.
  - intros (term & Hin & Ht). exists (lower term). split; [|exact Ht].
    now apply in_map.
Qed.



(** ** Blank lines *)

Lemma rstrip_keeps_text (c : ascii) (s : string) :
  isspace c = false -> str_truthy (rstrip (String c s)) = true.
Proof.
  intros Hc. cbn [rstrip]. destruct (rstrip s); [now rewrite Hc|reflexivity].
Qed.

(** [line.strip()] is empty exactly for a line of whitespace. *)
Lemma strip_blank (line : string) :
  str_truthy (strip line) = negb (blank line).
Proof.
  unfold strip, blank.
  induction line as [|c s IH]; [reflexivity|].
  cbn [lstrip all_chars]. destruct (isspace c) eqn:Hc.
  - exact IH.
  - now rewrite rstrip_keeps_text.
Qed.

(** ** The loop *)

Section LoopFacts.
Context {L : PyLib}.
Variables (os : platform) (a : args) (terms dts : list string).

Lemma iteration_blank (st : state) (line : string) :
  blank line = true ->
  iteration os a terms dts st line = (count_line st, None).
Proof.
  intros H. unfold iteration. now rewrite strip_blank, H.
Qed.

Lemma iteration_text (st : state) (line : string) :
  blank line = false ->
  iteration os a terms dts st line
  = match json_loads line with
    | Raise JSONDecodeError => (count_line st, None)
    | Raise e => (count_line st, Some e)
    | Ok obj =>
        match passes a terms obj with
        | Raise e => (count_line st, Some e)
        | Ok false => (count_line st, None)
        | Ok true =>
            match write_csv_row (out_file (count_line st)) (fields a) obj dts with
            | Raise e => (count_line st, Some e)
            | Ok w => (rotate os a (count_row (count_line st) w), None)
            end
        end
    end.
Proof.
  intros H. unfold iteration. now rewrite strip_blank, H.
Qed.

Lemma loop_app (st : state) (l1 l2 : list string) :
  loop os a terms dts st (l1 ++ l2)%list
  = match loop os a terms dts st l1 with
    | (st', None) => loop os a terms dts st' l2
    | (st', Some e) => (st', Some e)
    end.
Proof.
  revert st. induction l1 as [|x l1 IH]; intros st; [reflexivity|].
  cbn [loop app]. destruct (iteration os a terms dts st x) as [st' [e|]].
  - reflexivity.
  - apply IH.
Qed.

(** An exception in one iteration ends the loop: what follows is not read. *)
Lemma loop_interrupted (st st1 st2 : state) (before after : list string)
    (line : string) (e : exn) :
  loop os a terms dts st before = (st1, None) ->
  iteration os a terms dts st1 line = (st2, Some e) ->
  loop os a terms dts st (before ++ line :: after)%list = (st2, Some e).
Proof.
  intros H1 H2. rewrite loop_app, H1. cbn [loop]. now rewrite H2.
Qed.
End LoopFacts.

Lemma text_or_empty_none (d : list (string * value)) (k : string) :
  text_or_empty d k = None
  <-> exists v, assoc k d = Some v /\ truthy v = true
                /\ forall s, v <> VStr s.
Proof.
  unfold text_or_empty. split.
  - destruct (assoc k d) as [v|]; [|discriminate].
    destruct v; try destruct (truthy _) eqn:T; try discriminate;
      intros _; eexists; (split; [reflexivity|split; [exact T|discriminate]]).
  - intros (v & -> & T & Hs). destruct v; try (now rewrite T).
    now destruct (Hs s).
Qed.

(** C10.  With containment terms configured, the filter returns an
    answer for a record exactly when its body and its title are strs,
    missing, null or falsy; on any other record, such as one whose body
    is a non-zero number, it raises [TypeError].  Nothing catches the
    exception: the run ends at that line with no report, the record
    neither kept nor turned down, and the lines after it are not read. *)
Theorem contains_filter_type_error_aborts {L : PyLib} :
  (forall terms d, terms <> [] ->
     ((exists b, passes_contains terms (VDict d) = Ok b)
      <-> text_or_empty d "body" <> None /\ text_or_empty d "title" <> None)
     /\ (passes_contains terms (VDict d) = Raise TypeError
         <-> text_or_empty d "body" = None \/ text_or_empty d "title" = None))
  /\ (forall d k, text_or_empty d k = None
        <-> exists v, assoc k d = Some v /\ truthy v = true
                      /\ forall s, v <> VStr s)
  /\ (forall terms n, terms <> [] -> n <> 0 ->
        passes_contains terms (VDict [("body", VInt n)]) = Raise TypeError)
  /\ (forall w a evs before line after d st,
        contains a <> [] ->
        open_any w (input a) = (evs, Ok (before ++ line :: after)%list) ->
        loop (os_name w) a (map lower (contains a))
          (nodup string_dec (as_datetime a)) (initial (os_name w) a) before
        = (st, None) ->
        blank line = false ->
        json_loads line = Ok (VDict d) ->
        text_or_empty d "body" = None \/ text_or_empty d "title" = None ->
        raised (main w a) = Some TypeError
        /\ report (main w a) = None
        /\ final (main w a) = count_line st).
Proof.
  assert (Hraise : forall terms d, terms <> [] ->
            (passes_contains terms (VDict d) = Raise TypeError
             <-> text_or_empty d "body" = None \/ text_or_empty d "title" = None)).
  { intros [|t ts] d Hne; [congruence|]. rewrite passes_contains_dict.
    destruct (text_or_empty d "body"), (text_or_empty d "title");
      split; try discriminate; try tauto; intros [H|H]; discriminate. }
  split; [|split; [|split]].
  - intros terms d Hne. split; [|now apply Hraise].
    destruct terms as [|t ts]; [congruence|]. rewrite passes_contains_dict.
    destruct (text_or_empty d "body"), (text_or_empty d "title"); split;
      try (intros [b Hb]; discriminate);
      try (intros [H1 H2]; congruence).
    + intros _. split; discriminate.
    + intros _. eauto.
  - exact text_or_empty_none.
  - intros terms n Hne Hn. apply Hraise; [exact Hne|]. left.
    cbn. destruct n; [congruence|reflexivity|reflexivity].
  - intros w a evs before line after d st Hc Hopen Hloop Hb Hj Ht.
    assert (Hit : iteration (os_name w) a (map lower (contains a))
                    (nodup string_dec (as_datetime a)) st line
                  = (count_line st, Some TypeError)).
    { rewrite iteration_text by exact Hb. rewrite Hj. unfold passes.
      assert (Hm : map lower (contains a) <> [])
        by (destruct (contains a); [congruence|discriminate]).
      apply (Hraise _ d Hm) in Ht. now rewrite Ht. }
    unfold main. rewrite Hopen.
    rewrite (loop_interrupted _ _ _ _ _ _ _ _ _ _ _ Hloop Hit).
    repeat split.
Qed.

Lemma contains_filter_type_error_aborts_witness :
  raised (sample_run (args_contains ["gme"])
            [ln doc_body_gme; ln doc_body_five; ln doc_empty_object])
  = Some TypeError
  /\ report (sample_run (args_contains ["gme"])
               [ln doc_body_gme; ln doc_body_five; ln doc_empty_object])
     = None
  /\ kept (final (sample_run (args_contains ["gme"])
                    [ln doc_body_gme; ln doc_body_five; ln doc_empty_object]))
     = 1.
Proof.
  destruct (@contains_filter_type_error_aborts sample_lib) as (_ & _ & _ & H).
  destruct (H (sample_world [ln doc_body_gme; ln doc_body_five; ln doc_empty_object])
              (args_contains ["gme"])
              [OpenFile "in.ndjson" Plain]
              [ln doc_body_gme] (ln doc_body_five) [ln doc_empty_object]
              [("body", VInt 5)]
              (fst (loop (L:=sample_lib) Posix (args_contains ["gme"]) ["gme"] []
                      (initial Posix (args_contains ["gme"])) [ln doc_body_gme])))
    as (H1 & H2 & H3);
    [discriminate | reflexivity | reflexivity | reflexivity | reflexivity
    | left; reflexivity | ].
  unfold sample_run. rewrite H1, H2, H3. repeat split.
Defined.

(** ** Comparison of floats *)

Lemma SFcompare_antisym (x y : float) (c : comparison) :
  SFcompare x y = Some c -> SFcompare y x = Some (CompOpp c).
Proof.
  destruct x as [sx|sx| |sx mx ex], y as [sy|sy| |sy my ey]; simpl;
    try discriminate; intros E; injection E as <-;
    try (destruct sx; reflexivity); try (destruct sy; reflexivity);
    try (destruct sx, sy; reflexivity).
  destruct sx, sy; try reflexivity;
    rewrite (Z.compare_antisym ex ey);
    destruct (ex ?= ey); simpl; try reflexivity;
    rewrite ?CompOpp_involutive; f_equal.
  - exact (Pos.compare_cont_antisym my mx Eq).
  - symmetry. exact (Pos.compare_cont_antisym mx my Eq).
Qed.

Lemma SFcompare_defined (x y : float) :
  is_nan x = false -> is_nan y = false -> exists c, SFcompare x y = Some c.
Proof.
  destruct x, y; simpl; try discriminate; eauto.
Qed.

(** Away from NaN, [not (x < y)] is [y <= x]. *)
Lemma flt_false_iff_fle (x y : float) :
  is_nan x = false -> is_nan y = false ->
  flt x y = false <-> fle y x = true.
Proof.
  intros Hx Hy. destruct (SFcompare_defined x y Hx Hy) as [c Hc].
  unfold flt, fle, SFltb, SFleb.
  rewrite Hc, (SFcompare_antisym x y c Hc).
  destruct c; simpl; split; congruence.
Qed.

(** NaN is below nothing, above nothing, and at or above nothing. *)
Lemma nan_unordered (x : float) :
  flt S754_nan x = false /\ flt x S754_nan = false
  /\ fle x S754_nan = false /\ fle S754_nan x = false.
Proof.
  unfold flt, fle, SFltb, SFleb. destruct x; repeat split.
Qed.

(** ** The time filter *)

Section TimeFilter.
Context {L : PyLib}.

(** The filter on a dict, in one equation. *)
Lemma passes_time_dict (a : args) (d : list (string * value)) :
  min_utc a <> None \/ max_utc a <> None ->
  passes_time a (VDict d)
  = match py_float (match assoc (created_field a) d with
                    | Some v => v
                    | None => VNone
                    end) with
    | Raise _ => Ok false
    | Ok ts =>
        Ok (negb match min_utc a with
                 | Some lo => flt ts lo
                 | None => false
                 end
            && negb match max_utc a with
                    | Some hi => flt hi ts
                    | None => false
                    end)
    end.
Proof.
  intros H. unfold passes_time, py_get.
  destruct (min_utc a) as [lo|], (max_utc a) as [hi|];
    try (destruct H; congruence);
    destruct (assoc (created_field a) d) as [v|]; cbn [bind];
    destruct (py_float _) as [ts|]; try reflexivity;
    try (destruct (flt ts lo), (flt hi ts); reflexivity);
    try (destruct (flt ts lo); reflexivity);
    try (destruct (flt hi ts); reflexivity).
Qed.

(** A record whose timestamp field is missing, null, or does not convert
    to a float is turned down, without an exception. *)
Lemma time_filter_rejects_non_numeric (a : args) (d : list (string * value)) :
  min_utc a <> None \/ max_utc a <> None ->
  (assoc (created_field a) d = None
   \/ exists v e, assoc (created_field a) d = Some v /\ py_float v = Raise e) ->
  passes_time a (VDict d) = Ok false.
Proof.
  intros H Hv. rewrite passes_time_dict by exact H.
  destruct Hv as [->|(v & e & -> & ->)]; reflexivity.
Qed.

(** For bounds and a timestamp that are numbers, the filter keeps the
    record exactly when the timestamp lies between the bounds, both
    included. *)
Lemma time_filter_inclusive (a : args) (d : list (string * value))
    (v : value) (ts : float) :
  min_utc a <> None \/ max_utc a <> None ->
  assoc (created_field a) d = Some v ->
  py_float v = Ok ts ->
  is_nan ts = false ->
  (forall lo, min_utc a = Some lo -> is_nan lo = false) ->
  (forall hi, max_utc a = Some hi -> is_nan hi = false) ->
  passes_time a (VDict d) = Ok true
  <-> (forall lo, min_utc a = Some lo -> fle lo ts = true)
      /\ (forall hi, max_utc a = Some hi -> fle ts hi = true).
Proof.
  intros H Hv Hf Hts Hlo Hhi. rewrite passes_time_dict by exact H.
  rewrite Hv, Hf.
  destruct (min_utc a) as [lo|], (max_utc a) as [hi|];
    try (destruct H; congruence).
  - specialize (Hlo lo eq_refl). specialize (Hhi hi eq_refl).
    split.
    + intros E. injection E as E. apply andb_true_iff in E.
      destruct E as [E1 E2]. apply negb_true_iff in E1, E2.
      split; intros x Ex; injection Ex as <-;
        now apply flt_false_iff_fle.
    + intros [H1 H2]. f_equal. apply andb_true_iff.
      split; apply negb_true_iff; apply flt_false_iff_fle; auto.
  - specialize (Hlo lo eq_refl). split.
    + intros E. injection E as E. rewrite andb_true_r in E.
      apply negb_true_iff in E.
      split; intros x Ex; [injection Ex as <-|discriminate].
      now apply flt_false_iff_fle.
    + intros [H1 _]. f_equal. rewrite andb_true_r. apply negb_true_iff.
      apply flt_false_iff_fle; auto.
  - specialize (Hhi hi eq_refl). split.
    + intros E. injection E as E. apply negb_true_iff in E.
      split; intros x Ex; [discriminate|injection Ex as <-].
      now apply flt_false_iff_fle.
    + intros [_ H2]. f_equal. apply negb_true_iff.
      apply flt_false_iff_fle; auto.
Qed.

(** The record with [created_utc = 1609459200] is turned down under the
    lower bound 1609459201 and kept under the lower bound 1609459200. *)
Lemma time_filter_lower_bound_example :
  passes_time (args_min_utc 1609459201)
    (VDict [("created_utc", VInt 1609459200)]) = Ok false
  /\ passes_time (args_min_utc 1609459200)
       (VDict [("created_utc", VInt 1609459200)]) = Ok true.
Proof.
  split; reflexivity.
Qed.

(** A NaN timestamp passes every bound that is set. *)
Lemma time_filter_nan_passes (a : args) (d : list (string * value))
    (v : value) :
  min_utc a <> None \/ max_utc a <> None ->
  assoc (created_field a) d = Some v ->
  py_float v = Ok S754_nan ->
  passes_time a (VDict d) = Ok true.
Proof.
  intros H Hv Hf. rewrite passes_time_dict by exact H. rewrite Hv, Hf.
  destruct (min_utc a) as [lo|], (max_utc a) as [hi|];
    try (destruct H; congruence);
    repeat match goal with
           | |- context [flt S754_nan ?x] =>
               rewrite (proj1 (nan_unordered x))
           | |- context [flt ?x S754_nan] =>
               rewrite (proj1 (proj2 (nan_unordered x)))
           end; reflexivity.
Qed.
End TimeFilter.

(** C3 does not hold of the code at a NaN timestamp.  Under the lower
    bound 1609459200 the record whose [created_utc] is NaN, or the str
    [nan], passes the time filter and the run writes its row, although
    NaN is not at or above the bound: the filter turns a record down
    when its timestamp is below the lower bound, and NaN is below
    nothing. *)
Theorem nan_timestamp_kept_under_lower_bound :
  passes_time (L:=sample_lib) (args_min_utc 1609459200)
    (VDict [("created_utc", VFloat S754_nan)]) = Ok true
  /\ passes_time (L:=sample_lib) (args_min_utc 1609459200)
       (VDict [("created_utc", VStr "nan")]) = Ok true
  /\ fle (f64_of_Z 1609459200) S754_nan = false
  /\ report (sample_run (args_min_utc 1609459200) [ln doc_created_nan])
     = Some (1, 1)
  /\ all_data_rows (sample_run (args_min_utc 1609459200) [ln doc_created_nan])
     = [[""; ""; ""; ""; "nan"]].
Proof.
  repeat split.
Qed.

(** ** The shape of a formatted moment *)

Lemma all_from_spec (n : nat) (z : Z) (p : Z -> bool) :
  all_from n z p = true ->
  forall k, z <= k < z + Z.of_nat n -> p k = true.
Proof.
  revert z. induction n as [|n IH]; intros z H k Hk; [lia|].
  cbn [all_from] in H. apply andb_true_iff in H. destruct H as [Hz Hn].
  destruct (Z.eq_dec k z) as [->|Hne]; [exact Hz|].
  apply (IH (z + 1) Hn). lia.
Qed.

Lemma format_0d_two (n : Z) :
  0 <= n <= 99 -> decimal 2 (format_0d 2 n) = true.
Proof.
  intros H.
  assert (A : all_from 100 0 (fun k => decimal 2 (format_0d 2 k)) = true)
    by (vm_compute; reflexivity).
  apply (all_from_spec _ _ _ A). lia.
Qed.

Lemma format_0d_four (n : Z) :
  0 <= n <= 9999 -> decimal 4 (format_0d 4 n) = true.
Proof.
  intros H.
  assert (A : all_from (Z.to_nat 10000) 0 (fun k => decimal 4 (format_0d 4 k))
              = true)
    by (vm_compute; reflexivity).
  apply (all_from_spec _ _ _ A). lia.
Qed.

Lemma date_in_era_range (doe : Z) :
  0 <= doe < 146097 ->
  1 <= snd (fst (date_in_era doe)) <= 12
  /\ 1 <= snd (date_in_era doe) <= 31.
Proof.
  intros H. unfold date_in_era. cbn [fst snd].
  set (yoe := (doe - doe / 1460 + doe / 36524 - doe / 146096) / 365).
  set (doy := doe - (365 * yoe + yoe / 4 - yoe / 100)).
  assert (Hdoy : 0 <= doy <= 365)
    by (subst doy yoe; Z.div_mod_to_equations; lia).
  clearbody doy. clear yoe H.
  set (mp := (5 * doy + 2) / 153).
  assert (Hmp : 0 <= mp <= 11 /\ 1 <= doy - (153 * mp + 2) / 5 + 1 <= 31)
    by (subst mp; Z.div_mod_to_equations; lia).
  clearbody mp. destruct (Z.ltb_spec mp 10); lia.
Qed.

(** A moment that [utcfromtimestamp] returns has its fields in range. *)
Lemma utcfromtimestamp_ranges (ts : float) (dt : datetime) :
  utcfromtimestamp ts = Ok dt ->
  1 <= year dt <= 9999 /\ 1 <= month dt <= 12 /\ 1 <= day dt <= 31
  /\ 0 <= hour dt <= 23 /\ 0 <= minute dt <= 59 /\ 0 <= second dt <= 59.
Proof.
  unfold utcfromtimestamp.
  destruct (timeval_of_float ts) as [[sec us]|e]; cbn [bind]; [|discriminate].
  unfold civil_from_days.
  pose proof (date_in_era_range ((sec / 86400 + 719468) mod 146097)
                (Z.mod_pos_bound _ 146097 eq_refl)) as Hr.
  destruct (date_in_era ((sec / 86400 + 719468) mod 146097)) as [[y m] d].
  cbn [fst snd] in Hr.
  destruct ((1 <=? _) && (_ <=? 9999)) eqn:Hy; [|discriminate].
  intros E. injection E as <-. cbn [year month day hour minute second].
  apply andb_true_iff in Hy. destruct Hy as [Hy1 Hy2].
  apply Z.leb_le in Hy1, Hy2.
  pose proof (Z.mod_pos_bound sec 86400 eq_refl) as Hrem.
  repeat split; try lia; Z.div_mod_to_equations; lia.
Qed.

(** Its text is four digits, two, two, [T], two, two, two and [Z]. *)
Lemma strftime_iso_shape (ts : float) (dt : datetime) :
  utcfromtimestamp ts = Ok dt ->
  exists Y M D h m s,
    strftime_iso dt
    = Y ++ "-" ++ M ++ "-" ++ D ++ "T" ++ h ++ ":" ++ m ++ ":" ++ s ++ "Z"
    /\ decimal 4 Y = true /\ decimal 2 M = true /\ decimal 2 D = true
    /\ decimal 2 h = true /\ decimal 2 m = true /\ decimal 2 s = true.
Proof.
  intros H. apply utcfromtimestamp_ranges in H.
  destruct H as (Hy & Hm & Hd & Hh & Hmi & Hs).
  exists (format_0d 4 (year dt)), (format_0d 2 (month dt)),
    (format_0d 2 (day dt)), (format_0d 2 (hour dt)),
    (format_0d 2 (minute dt)), (format_0d 2 (second dt)).
  split; [reflexivity|].
  repeat split; (apply format_0d_four || apply format_0d_two); lia.
Qed.

(** ** Rows and cells *)

Section RowFacts.
Context {L : PyLib}.

(** The cell of a dict never raises: it is [cell_text]. *)
Lemma cell_dict (d : list (string * value)) (dts : list string) (f : string) :
  cell (VDict d) dts f = Ok (cell_text d dts f).
Proof.
  unfold cell, cell_text, py_get.
  destruct (assoc f d) as [v|]; cbn [bind]; [|reflexivity].
  destruct v; try reflexivity;
    destruct (mem f dts); try reflexivity;
    destruct (iso_of _); reflexivity.
Qed.

Lemma build_row_dict (d : list (string * value)) (dts fields row : list string) :
  build_row (VDict d) dts fields row
  = Ok (row ++ map (cell_text d dts) fields)%list.
Proof.
  revert row. induction fields as [|f fields IH]; intros row; cbn [build_row map].
  - now rewrite app_nil_r.
  - rewrite cell_dict. cbn [bind]. rewrite IH, <- app_assoc. reflexivity.
Qed.

(** The row of a dict has one cell per field, each computed from its own
    field alone. *)
Lemma write_csv_row_dict (w : sink) (fields : list string)
    (d : list (string * value)) (dts : list string) :
  write_csv_row w fields (VDict d) dts
  = Ok (writerow w (map (cell_text d dts) fields)).
Proof.
  unfold write_csv_row. now rewrite build_row_dict.
Qed.

(** A document that is not an object has no [get]: with at least one
    field, no row is written. *)
Lemma write_csv_row_not_dict (w : sink) (f : string) (fields : list string)
    (obj : value) (dts : list string) :
  is_dict obj = false ->
  write_csv_row w (f :: fields) obj dts = Raise AttributeError.
Proof.
  intros H. destruct obj; try discriminate; reflexivity.
Qed.

(** A list or a dict does not convert to a float. *)
Lemma py_float_nested (v : value) :
  is_nested v = true -> py_float v = Raise TypeError.
Proof.
  destruct v; try discriminate; reflexivity.
Qed.

(** In a field of the datetime set a list or a dict is written as [str]
    gives it: the conversion fails and the [except] clause takes over. *)
Lemma nested_datetime_cell_is_str (d : list (string * value))
    (dts : list string) (f : string) (val : value) :
  mem f dts = true ->
  assoc f d = Some val ->
  is_nested val = true ->
  cell (VDict d) dts f = Ok (py_str val).
Proof.
  intros Hm Hv Hn. rewrite cell_dict. unfold cell_text, iso_of.
  rewrite Hv, Hm, (py_float_nested val Hn).
  destruct val; try discriminate; reflexivity.
Qed.
End RowFacts.



(** C6 as stated fails for a field of the datetime set: the cell of the
    list [[true]] is [str] of the list, the text [[True]], and not its
    JSON text [[true]]. *)
Lemma nested_value_in_datetime_field_is_native_text :
  cell (L:=sample_lib) (VDict [("created_utc", VList [VBool true])])
    ["created_utc"] "created_utc" = Ok "[True]"
  /\ json_dumps (L:=sample_lib) (VList [VBool true]) = "[true]"
  /\ all_data_rows (sample_run (args_as_datetime ["created_utc"])
                      [ln doc_created_list])
     = [[""; ""; ""; ""; "[True]"]].
Proof.
  repeat split.
Qed.

(** C6, amended.  For a field that is not in the datetime set and whose
    value is a list or a dict, the cell written is the text
    [json.dumps] gives for the value. *)
Theorem nested_cell_is_json_text {L : PyLib}
    (w : sink) (fields : list string) (d : list (string * value))
    (dts : list string) :
  exists row,
    write_csv_row w fields (VDict d) dts = Ok (writerow w row)
    /\ List.length row = List.length fields
    /\ forall i f val,
         nth_error fields i = Some f ->
         mem f dts = false ->
         assoc f d = Some val ->
         is_nested val = true ->
         nth_error row i = Some (json_dumps val)
         /\ cell (VDict d) dts f = Ok (json_dumps val).
Proof.
  exists (map (cell_text d dts) fields). rewrite write_csv_row_dict.
  split; [reflexivity|]. split; [apply length_map|].
  intros i f val Hf Hm Hv Hn.
  assert (E : cell_text d dts f = json_dumps val).
  { unfold cell_text. rewrite Hv, Hm, Hn. destruct val; try discriminate;
      reflexivity. }
  split.
  - rewrite nth_error_map, Hf. cbn [option_map]. now rewrite E.
  - now rewrite cell_dict, E.
Qed.

Lemma nested_cell_is_json_text_witness :
  cell (L:=sample_lib)
    (VDict [("id", VInt 7); ("body", VList [VBool true; VNone; VInt 3])])
    ["created_utc"] "body" = Ok "[true, null, 3]".
Proof.
  destruct (@nested_cell_is_json_text sample_lib
              {| sink_path := "out.csv"; sink_rows := [] |}
              ["id"; "body"]
              [("id", VInt 7); ("body", VList [VBool true; VNone; VInt 3])]
              ["created_utc"]) as (row & _ & _ & H).
  exact (proj2 (H 1%nat "body" (VList [VBool true; VNone; VInt 3])
                  eq_refl eq_refl eq_refl eq_refl)).
Defined.

(** ** Counting the lines *)

Lemma count_cons (p : string -> bool) (x : string) (l : list string) :
  count p (x :: l) = (if p x then 1 else 0) + count p l.
Proof.
  unfold count. cbn [filter]. destruct (p x); cbn [List.length]; lia.
Qed.

Lemma count_nonneg (p : string -> bool) (l : list string) : 0 <= count p l.
Proof.
  unfold count. lia.
Qed.

Section Counting.
Context {L : PyLib}.
Variables (os : platform) (a : args) (dts : list string).

Lemma rotate_counters (st : state) :
  total (rotate os a st) = total st /\ kept (rotate os a st) = kept st.
Proof.
  unfold rotate. destruct (_ && _); split; reflexivity.
Qed.

(** One iteration counts its line, and keeps it unless the line is
    blank, fails to decode, or is turned down by a filter; an iteration
    that raises keeps nothing. *)
Lemma iteration_counts (st st' : state) (line : string) (r : option exn) :
  iteration os a (map lower (contains a)) dts st line = (st', r) ->
  total st' = total st + 1
  /\ kept st' + (if blank line then 1 else 0)
       + (if parse_failure line then 1 else 0)
       + (if filter_rejected a line then 1 else 0)
       + match r with Some _ => 1 | None => 0 end
     = kept st + 1.
Proof.
  unfold parse_failure, filter_rejected.
  destruct (blank line) eqn:Hb.
  - rewrite iteration_blank by exact Hb. intros E. injection E as <- <-.
    cbn. lia.
  - rewrite iteration_text by exact Hb. cbn [negb andb].
    destruct (json_loads line) as [obj|e].
    + destruct (passes a _ obj) as [[|]|e].
      * destruct (write_csv_row _ _ _ _) as [w|e]; intros E;
          injection E as <- <-.
        -- destruct (rotate_counters (count_row (count_line st) w)) as [-> ->].
           cbn. lia.
        -- cbn. lia.
      * intros E. injection E as <- <-. cbn. lia.
      * intros E. injection E as <- <-. cbn. lia.
    + destruct e; intros E; injection E as <- <-; cbn; lia.
Qed.

(** The counters after a loop that ran to the end of its lines. *)
Lemma loop_counts (lines : list string) (st st' : state) :
  loop os a (map lower (contains a)) dts st lines = (st', None) ->
  total st' = total st + Z.of_nat (List.length lines)
  /\ kept st' + count blank lines + count parse_failure lines
       + count (filter_rejected a) lines
     = kept st + Z.of_nat (List.length lines).
Proof.
  revert st. induction lines as [|line lines IH]; intros st; cbn [loop].
  - intros E. injection E as <-. unfold count. cbn. lia.
  - destruct (iteration os a _ dts st line) as [st1 [e|]] eqn:Hit;
      [discriminate|].
    intros E. destruct (IH _ E) as [Ht Hk].
    destruct (iteration_counts _ _ _ _ Hit) as [Ht1 Hk1].
    rewrite !count_cons. cbn [List.length]. lia.
Qed.
End Counting.

(** A decoder that differs from [json.loads] on blank lines only gives
    the same iteration: the loop does not consult it on a blank line. *)
Lemma iteration_ignores_blank_decoding {L : PyLib}
    (loads : string -> res value) (os : platform) (a : args)
    (terms dts : list string) (st : state) (line : string) :
  (forall l, blank l = false -> loads l = json_loads l) ->
  iteration (L:=with_loads L loads) os a terms dts st line
  = iteration os a terms dts st line.
Proof.
  intros H. destruct (blank line) eqn:Hb.
  - now rewrite !iteration_blank.
  - rewrite !iteration_text by exact Hb.
    change (@json_loads (with_loads L loads) line) with (loads line).
    rewrite (H line Hb). reflexivity.
Qed.

Lemma loop_ignores_blank_decoding {L : PyLib}
    (loads : string -> res value) (os : platform) (a : args)
    (terms dts : list string) (lines : list string) (st : state) :
  (forall l, blank l = false -> loads l = json_loads l) ->
  loop (L:=with_loads L loads) os a terms dts st lines
  = loop os a terms dts st lines.
Proof.
  intros H. revert st. induction lines as [|line lines IH]; intros st;
    cbn [loop]; [reflexivity|].
  rewrite iteration_ignores_blank_decoding by exact H.
  destruct (iteration os a terms dts st line) as [st1 [e|]];
    [reflexivity|apply IH].
Qed.



(** ** The rows of a run without filters *)

Lemma rows_so_far_row (st : state) (row : list string) :
  sink_rows (out_file st) <> [] ->
  rows_so_far (count_row st (writerow (out_file st) row))
  = (rows_so_far st ++ [row])%list.
Proof.
  intros H. unfold rows_so_far, count_row, writerow. cbn [closed out_file].
  rewrite !flat_map_app. cbn [flat_map]. rewrite !app_nil_r.
  unfold data_rows. cbn [sink_rows].
  destruct (sink_rows (out_file st)) as [|h rows]; [congruence|].
  cbn [tl app]. now rewrite app_assoc.
Qed.

Lemma rows_so_far_rotate (os : platform) (a : args) (st : state) :
  rows_so_far (rotate os a st) = rows_so_far st
  /\ (sink_rows (out_file st) <> [] ->
      sink_rows (out_file (rotate os a st)) <> []).
Proof.
  unfold rotate. destruct (_ && _); [|now split].
  split; [|discriminate].
  unfold rows_so_far. cbn [closed out_file]. rewrite !flat_map_app.
  cbn. now rewrite !app_nil_r.
Qed.

Section Unfiltered.
Context {L : PyLib}.
Variables (os : platform) (a : args).
Hypothesis no_min : min_utc a = None.
Hypothesis no_max : max_utc a = None.

Lemma passes_unfiltered (obj : value) : passes a [] obj = Ok true.
Proof.
  unfold passes, passes_contains, passes_time. cbn [bind].
  now rewrite no_min, no_max.
Qed.

Lemma iteration_unfiltered (st : state) (line : string) :
  sink_rows (out_file st) <> [] ->
  (blank line = false ->
   (exists d, json_loads line = Ok (VDict d))
   \/ json_loads line = Raise JSONDecodeError) ->
  exists st',
    iteration os a [] (nodup string_dec (as_datetime a)) st line = (st', None)
    /\ sink_rows (out_file st') <> []
    /\ rows_so_far st' = (rows_so_far st ++ map (encode a) (documents [line]))%list
    /\ kept st' = kept st + (if parseable line then 1 else 0).
Proof.
  intros Hh Hline. unfold documents, parseable. cbn [flat_map].
  destruct (blank line) eqn:Hb.
  - rewrite iteration_blank by exact Hb. exists (count_line st).
    cbn. rewrite app_nil_r. repeat split; try lia. exact Hh.
  - rewrite iteration_text by exact Hb.
    destruct (Hline eq_refl) as [[d Hd]|He].
    + rewrite Hd, passes_unfiltered, write_csv_row_dict.
      eexists. split; [reflexivity|].
      destruct (rows_so_far_rotate os a
                  (count_row (count_line st)
                     (writerow (out_file (count_line st))
                        (map (cell_text d (nodup string_dec (as_datetime a)))
                           (fields a))))) as [Hr Hn].
      destruct (rotate_counters os a
                  (count_row (count_line st)
                     (writerow (out_file (count_line st))
                        (map (cell_text d (nodup string_dec (as_datetime a)))
                           (fields a))))) as [_ Hk].
      split; [apply Hn; cbn; now destruct (sink_rows (out_file st))|].
      split.
      * rewrite Hr, rows_so_far_row by exact Hh. reflexivity.
      * rewrite Hk. reflexivity.
    + rewrite He. exists (count_line st). cbn. rewrite app_nil_r.
      repeat split; try lia. exact Hh.
Qed.

Lemma loop_unfiltered (lines : list string) (st : state) :
  sink_rows (out_file st) <> [] ->
  (forall line, In line lines -> blank line = false ->
     (exists d, json_loads line = Ok (VDict d))
     \/ json_loads line = Raise JSONDecodeError) ->
  exists st',
    loop os a [] (nodup string_dec (as_datetime a)) st lines = (st', None)
    /\ rows_so_far st' = (rows_so_far st ++ map (encode a) (documents lines))%list
    /\ kept st' = kept st + count parseable lines.
Proof.
  revert st. induction lines as [|line lines IH]; intros st Hh Hl.
  - exists st. cbn. rewrite app_nil_r. unfold count. cbn.
    repeat split. lia.
  - destruct (iteration_unfiltered st line Hh (Hl line (or_introl eq_refl)))
      as (st1 & Hit & Hh1 & Hr1 & Hk1).
    destruct (IH st1 Hh1 (fun l Hin => Hl l (or_intror Hin)))
      as (st' & Hloop & Hr & Hk).
    exists st'. cbn [loop]. rewrite Hit. split; [exact Hloop|].
    split.
    + rewrite Hr, Hr1, <- app_assoc, <- map_app. do 2 f_equal.
      unfold documents. cbn [flat_map]. now rewrite app_nil_r.
    + rewrite Hk, Hk1, count_cons. lia.
Qed.
End Unfiltered.

Lemma documents_length {L : PyLib} (lines : list string) :
  Z.of_nat (List.length (documents lines)) = count parseable lines.
Proof.
  induction lines as [|line lines IH]; [reflexivity|].
  rewrite count_cons, <- IH. unfold documents. cbn [flat_map].
  rewrite length_app, Nat2Z.inj_add. unfold parseable.
  destruct (blank line); cbn [negb andb List.length]; [lia|].
  destruct (json_loads line); cbn [List.length]; lia.
Qed.

(** Without filters and with at least one field, a line that decodes to
    a document that is not an object ends the run in [AttributeError]:
    the lines after it are not read and nothing is reported. *)
Lemma non_object_document_raises {L : PyLib} (w : world) (a : args)
    (evs : list io_event) (before after : list string) (line : string)
    (obj : value) (st : state) :
  contains a = [] -> min_utc a = None -> max_utc a = None ->
  fields a <> [] ->
  open_any w (input a) = (evs, Ok (before ++ line :: after)%list) ->
  loop (os_name w) a [] (nodup string_dec (as_datetime a))
    (initial (os_name w) a) before = (st, None) ->
  blank line = false ->
  json_loads line = Ok obj ->
  is_dict obj = false ->
  raised (main w a) = Some AttributeError
  /\ report (main w a) = None
  /\ final (main w a) = count_line st.
Proof.
  intros Hc Hmin Hmax Hf Hopen Hloop Hb Hj Hd.
  assert (Hit : iteration (os_name w) a [] (nodup string_dec (as_datetime a))
                  st line = (count_line st, Some AttributeError)).
  { rewrite iteration_text by exact Hb.
    rewrite Hj, (passes_unfiltered a Hmin Hmax).
    destruct (fields a) as [|f fs]; [congruence|].
    now rewrite write_csv_row_not_dict. }
  unfold main. rewrite Hopen, Hc. cbn [map].
  rewrite (loop_interrupted _ _ _ _ _ _ _ _ _ _ _ Hloop Hit).
  repeat split.
Qed.




(** ** Rotation *)

Lemma make_writer_part (os : platform) (a : args) (k : Z) :
  sink_path (make_writer os a (Some k)) = part_path os (output a) k
  /\ sink_rows (make_writer os a (Some k)) = [fields a].
Proof.
  unfold make_writer, part_path. split; [|reflexivity].
  destruct (splitext os (output a)) as [base ext]. cbn [sink_path fst snd].
  destruct ext; reflexivity.
Qed.

Lemma parts_snoc (n : nat) :
  parts (S n) = (parts n ++ [Z.of_nat n + 1])%list.
Proof.
  unfold parts. rewrite seq_S, map_app. reflexivity.
Qed.

Lemma write_csv_row_appends {L : PyLib} (w w' : sink) (fields : list string)
    (obj : value) (dts : list string) :
  write_csv_row w fields obj dts = Ok w' ->
  exists row, w' = writerow w row.
Proof.
  unfold write_csv_row. destruct (build_row _ _ _ _) as [row|e]; cbn [bind].
  - intros E. injection E as <-. now exists row.
  - discriminate.
Qed.

Section Rotation.
Context {L : PyLib}.
Variables (os : platform) (a : args) (terms dts : list string).
Hypothesis splitting : 0 < max_rows_per_file a.

Lemma rotating_initial : rotating os a (initial os a).
Proof.
  unfold initial.
  destruct (Z.leb_spec (max_rows_per_file a) 0) as [H|_]; [lia|].
  destruct (Z.ltb_spec 0 (max_rows_per_file a)) as [_|H]; [|lia].
  destruct (make_writer_part os a 1) as [Hp Hr].
  constructor; cbn [closed out_file rows_in_current part_idx kept List.length map];
    try reflexivity; try lia.
  - exact Hp.
  - constructor.
  - exists []. now split.
Qed.

Lemma rotating_count_line (st : state) :
  rotating os a st -> rotating os a (count_line st).
Proof.
  intros [H1 H2 H3 H4 H5 H6 H7]. now constructor.
Qed.

(** Writing a row and rotating at once when the part is full keeps the
    shape. *)
Lemma rotating_row (st : state) (row : list string) :
  rotating os a st ->
  rotating os a (rotate os a (count_row st (writerow (out_file st) row))).
Proof.
  intros [H1 H2 H3 H4 (data & H5 & H5') H6 H7].
  unfold rotate. cbn [count_row rows_in_current part_idx closed out_file total kept].
  destruct (Z.ltb_spec 0 (max_rows_per_file a)) as [_|H]; [|lia].
  cbn [andb].
  destruct (Z.leb_spec (max_rows_per_file a) (rows_in_current st + 1)) as [Hfull|Hroom].
  - (* the part is full: close it and open the next one *)
    rewrite H1.
    destruct (Z.eqb_spec (Z.of_nat (List.length (closed st)) + 1) 0) as [E|_];
      [lia|].
    destruct (make_writer_part os a (Z.of_nat (List.length (closed st)) + 1 + 1))
      as [Hp Hr].
    constructor;
      cbn [closed out_file rows_in_current part_idx kept];
      rewrite ?length_app; cbn [List.length];
      rewrite ?Nat.add_1_r, ?Nat2Z.inj_succ.
    + f_equal; lia.
    + rewrite map_app, parts_snoc, map_app, H2. cbn [map writerow sink_path].
      now rewrite H3.
    + rewrite Hp. f_equal; lia.
    + apply Forall_app. split; [exact H4|]. constructor; [|constructor].
      exists (data ++ [row])%list. cbn [writerow sink_rows]. rewrite H5.
      split; [reflexivity|]. rewrite length_app. cbn [List.length]. lia.
    + exists []. now split.
    + lia.
    + lia.
  - constructor;
      cbn [count_row closed out_file rows_in_current part_idx kept];
      try assumption; try lia.
    exists (data ++ [row])%list. cbn [writerow sink_rows]. rewrite H5.
    split; [reflexivity|]. rewrite length_app. cbn [List.length]. lia.
Qed.

Lemma rotating_iteration (st st' : state) (line : string) (r : option exn) :
  rotating os a st ->
  iteration os a terms dts st line = (st', r) ->
  rotating os a st'.
Proof.
  intros Hst. apply rotating_count_line in Hst.
  destruct (blank line) eqn:Hb.
  - rewrite iteration_blank by exact Hb. intros E. now injection E as <- <-.
  - rewrite iteration_text by exact Hb.
    destruct (json_loads line) as [obj|e].
    + destruct (passes a terms obj) as [[|]|e];
        try (intros E; now injection E as <- <-).
      destruct (write_csv_row _ _ _ _) as [w|e] eqn:Hw;
        intros E; injection E as <- <-; [|exact Hst].
      destruct (write_csv_row_appends _ _ _ _ _ Hw) as [row ->].
      now apply rotating_row.
    + destruct e; intros E; now injection E as <- <-.
Qed.

Lemma rotating_loop (lines : list string) (st st' : state) (r : option exn) :
  rotating os a st ->
  loop os a terms dts st lines = (st', r) ->
  rotating os a st'.
Proof.
  revert st. induction lines as [|line lines IH]; intros st Hst; cbn [loop].
  - intros E. now injection E as <- <-.
  - destruct (iteration os a terms dts st line) as [st1 [e|]] eqn:Hit.
    + intros E. injection E as <- <-. exact (rotating_iteration _ _ _ _ Hst Hit).
    + apply IH. exact (rotating_iteration _ _ _ _ Hst Hit).
Qed.
End Rotation.

(** The variables at the end of a run that splits its output, whether it
    reached the end of the input or not. *)
Lemma rotating_main {L : PyLib} (w : world) (a : args) :
  0 < max_rows_per_file a ->
  rotating (os_name w) a (final (main w a)).
Proof.
  intros H. unfold main.
  destruct (open_any w (input a)) as [evs [fin|e]].
  - destruct (loop _ a _ _ _ fin) as [st [e|]] eqn:Hloop; cbn [final];
      exact (rotating_loop _ _ _ _ H _ _ _ _ (rotating_initial _ _ H) Hloop).
  - cbn [final]. now apply rotating_initial.
Qed.

(** ** Part paths *)

Lemma take_drop (s : string) (n : nat) :
  String.substring 0 n s
  ++ String.substring n (String.length s - n) s = s.
Proof.
  revert n. induction s as [|c s IH]; intros [|n]; try reflexivity.
  - specialize (IH 0%nat). rewrite Nat.sub_0_r in IH.
    cbn [String.length Nat.sub substring append]. f_equal.
    destruct s; exact IH.
  - cbn [String.length Nat.sub substring append]. f_equal. apply IH.
Qed.

(** [splitext] cuts the path in two. *)
Lemma splitext_cuts (os : platform) (p : string) :
  fst (splitext os p) ++ snd (splitext os p) = p.
Proof.
  assert (E : forall q, q ++ "" = q)
    by (induction q as [|c q IH]; cbn; [reflexivity|now rewrite IH]).
  destruct os; unfold splitext, splitext_generic; split_ifs;
    cbn [fst snd]; try apply E; apply take_drop.
Qed.

(** The numbers 1 to 9999 are written on exactly four digits. *)
Lemma format_0d_four_digits (k : Z) :
  1 <= k <= 9999 -> String.length (format_0d 4 k) = 4%nat.
Proof.
  intros H. assert (D : decimal 4 (format_0d 4 k) = true)
    by (apply format_0d_four; lia).
  unfold decimal in D. apply andb_true_iff in D. now apply Nat.eqb_eq.
Qed.

Lemma parts_nth (n i : nat) :
  (i < n)%nat -> nth_error (parts n) i = Some (Z.of_nat i + 1).
Proof.
  intros H. unfold parts. rewrite nth_error_map.
  rewrite (nth_error_nth' (seq 0 n) 0%nat) by (now rewrite length_seq).
  rewrite seq_nth by exact H. reflexivity.
Qed.

Lemma files_paths {L : PyLib} (w : world) (a : args) :
  0 < max_rows_per_file a ->
  map sink_path (files (main w a))
  = map (part_path (os_name w) (output a))
      (parts (List.length (files (main w a)))).
Proof.
  intros H. destruct (rotating_main w a H) as [_ H2 H3 _ _ _ _].
  unfold files. rewrite length_app, Nat.add_1_r, parts_snoc, !map_app, H2.
  cbn [map List.length]. now rewrite H3.
Qed.

Lemma files_headed {L : PyLib} (w : world) (a : args) :
  0 < max_rows_per_file a ->
  Forall (fun s => hd_error (sink_rows s) = Some (fields a)) (files (main w a)).
Proof.
  intros H. destruct (rotating_main w a H) as [_ _ _ H4 (data & H5 & _) _ _].
  unfold files. apply Forall_app. split.
  - eapply Forall_impl; [|exact H4]. intros s (dat & -> & _). reflexivity.
  - constructor; [|constructor]. now rewrite H5.
Qed.



(** C9.  When the threshold [t] is above 0 and the number of rows kept
    at the end of the run is a positive multiple of [t], the last file
    of the run holds the header row and no data row: the [kept / t]
    files before it are full and hold every kept row, and this one was
    opened, as part [kept / t + 1], when the last of them was filled. *)
Theorem full_last_part_leaves_header_only_part {L : PyLib}
    (w : world) (a : args) :
  0 < max_rows_per_file a ->
  0 < kept (final (main w a)) ->
  kept (final (main w a)) mod max_rows_per_file a = 0 ->
  sink_rows (out_file (final (main w a))) = [fields a]
  /\ data_rows (out_file (final (main w a))) = []
  /\ Z.of_nat (List.length (closed (final (main w a))))
     = kept (final (main w a)) / max_rows_per_file a
  /\ Forall (full_part a) (closed (final (main w a)))
  /\ Z.of_nat (List.length (files (main w a)))
     = kept (final (main w a)) / max_rows_per_file a + 1
  /\ sink_path (out_file (final (main w a)))
     = part_path (os_name w) (output a)
         (kept (final (main w a)) / max_rows_per_file a + 1).
Proof.
  intros Ht Hk Hm.
  destruct (rotating_main w a Ht) as [_ _ H3 H4 (data & H5 & H5') H6 H7].
  set (t := max_rows_per_file a) in *.
  set (c := Z.of_nat (List.length (closed (final (main w a))))) in *.
  set (r := rows_in_current (final (main w a))) in *.
  assert (Hr : r = 0).
  { rewrite H7, Z.add_comm, (Z.mul_comm t c), Z.mod_add in Hm by lia.
    rewrite Z.mod_small in Hm by lia. exact Hm. }
  assert (Hc : kept (final (main w a)) / t = c).
  { rewrite H7, Hr, Z.add_0_r, Z.mul_comm. apply Z.div_mul. lia. }
  assert (Hd : data = []) by (destruct data; [reflexivity|cbn in H5'; lia]).
  subst data. rewrite Hc.
  repeat split.
  - exact H5.
  - unfold data_rows. now rewrite H5.
  - exact H4.
  - unfold files. rewrite length_app. cbn [List.length]. lia.
  - exact H3.
Qed.

Lemma full_last_part_leaves_header_only_part_witness :
  map sink_rows
    (files (sample_run (args_max_rows "out" 2)
              [ln doc_created; ln doc_empty_object; ln doc_created;
               ln doc_empty_object]))
  = [[["id"; "author"; "body"; "score"; "created_utc"];
      [""; ""; ""; ""; "1600000000"]; [""; ""; ""; ""; ""]];
     [["id"; "author"; "body"; "score"; "created_utc"];
      [""; ""; ""; ""; "1600000000"]; [""; ""; ""; ""; ""]];
     [["id"; "author"; "body"; "score"; "created_utc"]]]
  /\ sink_rows
       (out_file (final (sample_run (args_max_rows "out" 2)
                           [ln doc_created; ln doc_empty_object; ln doc_created;
                            ln doc_empty_object])))
     = [["id"; "author"; "body"; "score"; "created_utc"]]
  /\ sink_path
       (out_file (final (sample_run (args_max_rows "out" 2)
                           [ln doc_created; ln doc_empty_object; ln doc_created;
                            ln doc_empty_object])))
     = "out_part0003.csv".
Proof.
  split; [reflexivity|].
  destruct (@full_last_part_leaves_header_only_part sample_lib
              (sample_world [ln doc_created; ln doc_empty_object; ln doc_created;
                             ln doc_empty_object])
              (args_max_rows "out" 2))
    as (H1 & _ & _ & _ & _ & H6);
    [reflexivity | reflexivity | reflexivity | ].
  split; [exact H1 | exact H6].
Defined.

(** ** Which exceptions leave the loop *)

Lemma passes_contains_raises (terms : list string) (obj : value) (e : exn) :
  passes_contains terms obj = Raise e -> e = AttributeError \/ e = TypeError.
Proof.
  destruct terms as [|t ts]; [discriminate|].
  destruct obj; try (cbn; intros E; injection E as <-; now left).
  rewrite passes_contains_dict.
  destruct (text_or_empty d "body"), (text_or_empty d "title");
    try discriminate; intros E; injection E as <-; now right.
Qed.

Lemma passes_time_raises {L : PyLib} (a : args) (obj : value) (e : exn) :
  passes_time a obj = Raise e -> e = AttributeError.
Proof.
  unfold passes_time.
  destruct (min_utc a) as [lo|], (max_utc a) as [hi|]; try discriminate;
    (destruct (py_get obj (created_field a)) as [ts|e'] eqn:Hg; cbn [bind];
     [ destruct (py_float ts) as [x|]; try discriminate;
       split_ifs; discriminate
     | intros E; injection E as <-;
       destruct obj; try (cbn in Hg; now injection Hg as <-);
       cbn in Hg; destruct (assoc _ _); discriminate ]).
Qed.

Lemma passes_raises {L : PyLib} (a : args) (terms : list string)
    (obj : value) (e : exn) :
  passes a terms obj = Raise e -> e = AttributeError \/ e = TypeError.
Proof.
  unfold passes.
  destruct (passes_contains terms obj) as [[|]|e'] eqn:Hc; cbn [bind].
  - intros E. left. exact (passes_time_raises _ _ _ E).
  - discriminate.
  - intros E. injection E as <-. exact (passes_contains_raises _ _ _ Hc).
Qed.

Lemma write_csv_row_raises {L : PyLib} (w : sink) (fields : list string)
    (obj : value) (dts : list string) (e : exn) :
  write_csv_row w fields obj dts = Raise e -> e = AttributeError.
Proof.
  destruct fields as [|f fields]; [discriminate|].
  destruct (is_dict obj) eqn:Hd.
  - destruct obj; try discriminate. now rewrite write_csv_row_dict.
  - rewrite write_csv_row_not_dict by exact Hd. intros E. now injection E as <-.
Qed.

(** A line that fails to decode never ends the run. *)
Lemma decode_error_is_absorbed {L : PyLib} (w : world) (a : args) :
  raised (main w a) <> Some JSONDecodeError.
Proof.
  assert (Hit : forall os terms dts st line st',
             iteration os a terms dts st line <> (st', Some JSONDecodeError)).
  { intros os terms dts st line st'. destruct (blank line) eqn:Hb.
    - rewrite iteration_blank by exact Hb. discriminate.
    - rewrite iteration_text by exact Hb.
      destruct (json_loads line) as [obj|e].
      + destruct (passes a terms obj) as [[|]|e] eqn:Hp; try discriminate.
        * destruct (write_csv_row _ _ _ _) as [x|e] eqn:Hw; try discriminate.
          apply write_csv_row_raises in Hw. subst e. discriminate.
        * destruct (passes_raises _ _ _ _ Hp); subst e; discriminate.
      + destruct e; discriminate. }
  assert (Hloop : forall os terms dts lines st st',
             loop os a terms dts st lines <> (st', Some JSONDecodeError)).
  { intros os terms dts lines. induction lines as [|line lines IH];
      intros st st'; cbn [loop]; [discriminate|].
    destruct (iteration os a terms dts st line) as [st1 [e|]] eqn:Hi.
    - intros E. injection E as <- ->. exact (Hit _ _ _ _ _ _ Hi).
    - apply IH. }
  unfold main, open_any, open_as.
  repeat match goal with
         | |- context [if ?b then _ else _] => destruct b
         | |- context [file_lines ?w ?c ?p] => destruct (file_lines w c p)
         end; cbn [raised]; try discriminate;
    match goal with
    | |- context [loop ?os a ?t ?d ?st ?l] =>
        destruct (loop os a t d st l) as [st' [e|]] eqn:Hl; cbn [raised];
        [intros E; injection E as ->; exact (Hloop _ _ _ _ _ _ Hl)
        |discriminate]
    end.
Qed.

(** ** [open_any] *)

(** C8.  For an input path that ends in [.zst], on a machine where
    [import zstandard] fails, [open_any] prints its two diagnostic lines
    and raises [ImportError]; it has opened no file and returns no
    stream, whatever the files hold.  The run ends there: no line is
    counted and no report is printed.  This is not the error of a line
    that fails to decode, which never ends a run. *)
Theorem open_any_zst_needs_zstandard {L : PyLib} (w : world) (a : args) :
  endswith (input a) ".zst" = true ->
  zstandard_installed w = false ->
  snd (open_any w (input a)) = Raise ImportError
  /\ (forall p c, ~ In (OpenFile p c) (fst (open_any w (input a))))
  /\ (forall w', zstandard_installed w' = false ->
                 open_any w' (input a) = open_any w (input a))
  /\ raised (main w a) = Some ImportError
  /\ report (main w a) = None
  /\ total (final (main w a)) = 0
  /\ (forall w' a', raised (main w' a') <> Some JSONDecodeError).
Proof.
  intros Hz Hw.
  assert (Hlow : endswith (lower (input a)) ".zst" = true)
    by exact (endswith_lower (input a) ".zst" Hz).
  assert (Hgz : endswith (lower (input a)) ".gz" = false)
    by exact (endswith_gz_not_zst _ Hlow).
  assert (Hopen : forall w', zstandard_installed w' = false ->
            open_any w' (input a)
            = ([Stderr "ERROR: .zst file detected but the 'zstandard' package is not installed.";
                Stderr "Install it with:  pip install zstandard"],
               Raise ImportError)).
  { intros w' Hw'. unfold open_any. now rewrite Hgz, Hlow, Hw'. }
  unfold main. rewrite (Hopen w Hw). cbn [fst snd raised report final].
  repeat split.
  - intros p c [H|[H|[]]]; discriminate H.
  - intros w' Hw'. apply (Hopen w' Hw').
  - intros w' a'. apply decode_error_is_absorbed.
Qed.

Lemma open_any_zst_needs_zstandard_witness :
  open_any (sample_world [ln doc_created]) "dump.json.zst"
  = ([Stderr "ERROR: .zst file detected but the 'zstandard' package is not installed.";
      Stderr "Install it with:  pip install zstandard"],
     Raise ImportError)
  /\ raised (sample_run (default_args "dump.json.zst" "out.csv") [ln doc_created])
     = Some ImportError.
Proof.
  split; [reflexivity|].
  apply (@open_any_zst_needs_zstandard sample_lib
           (sample_world [ln doc_created])
           (default_args "dump.json.zst" "out.csv"));
    reflexivity.
Defined.

(** * Further properties of the run *)

(** ** The rows a run writes *)

Section RowsOfRun.
Context {L : PyLib}.
Variables (os : platform) (a : args).

Lemma build_row_length (obj : value) (dts fields row0 row : list string) :
  build_row obj dts fields row0 = Ok row ->
  List.length row = (List.length row0 + List.length fields)%nat.
Proof.
  revert row0. induction fields as [|f fields IH]; intros row0; cbn [build_row].
  - intros E. injection E as <-. cbn. lia.
  - destruct (cell obj dts f) as [c|e]; cbn [bind]; [|discriminate].
    intros E. rewrite (IH _ E), length_app. cbn [List.length]. lia.
Qed.

(** The row written for a document is [encode] of it. *)
Lemma write_csv_row_encode (w w' : sink) (obj : value) :
  write_csv_row w (fields a) obj (nodup string_dec (as_datetime a)) = Ok w' ->
  w' = writerow w (encode a obj).
Proof.
  destruct (is_dict obj) eqn:Hd.
  - destruct obj; try discriminate. rewrite write_csv_row_dict.
    intros E. now injection E as <-.
  - destruct (fields a) as [|f fs] eqn:Hf.
    + unfold write_csv_row, encode. cbn [build_row bind]. rewrite Hf.
      intros E. injection E as <-. destruct obj; try discriminate; reflexivity.
    + now rewrite write_csv_row_not_dict.
Qed.

Lemma accepted_one (line : string) :
  accepted a [line]
  = if blank line then []
    else match json_loads line with
         | Ok obj => if accepts a obj then [obj] else []
         | Raise _ => []
         end.
Proof.
  unfold accepted, documents. cbn [flat_map]. rewrite app_nil_r.
  destruct (blank line); [reflexivity|].
  destruct (json_loads line); [|reflexivity].
  cbn [filter]. destruct (accepts a a0); reflexivity.
Qed.

Lemma accepted_cons (line : string) (lines : list string) :
  accepted a (line :: lines) = (accepted a [line] ++ accepted a lines)%list.
Proof.
  unfold accepted, documents. cbn [flat_map].
  now rewrite app_nil_r, filter_app.
Qed.

(** One iteration adds the row of its document when the filters let it
    through, and no row otherwise; the counter [kept] follows. *)
Lemma iteration_rows (st st' : state) (line : string) (r : option exn) :
  sink_rows (out_file st) <> [] ->
  iteration os a (map lower (contains a)) (nodup string_dec (as_datetime a))
    st line = (st', r) ->
  sink_rows (out_file st') <> []
  /\ match r with
     | None =>
         rows_so_far st'
         = (rows_so_far st ++ map (encode a) (accepted a [line]))%list
         /\ kept st' = kept st + Z.of_nat (List.length (accepted a [line]))
     | Some _ => rows_so_far st' = rows_so_far st /\ kept st' = kept st
     end.
Proof.
  intros Hh. rewrite accepted_one. unfold accepts.
  destruct (blank line) eqn:Hb.
  - rewrite iteration_blank by exact Hb. intros E. injection E as <- <-.
    cbn. rewrite app_nil_r. repeat split; try lia. exact Hh.
  - rewrite iteration_text by exact Hb.
    destruct (json_loads line) as [obj|e].
    + destruct (passes a _ obj) as [[|]|e].
      * destruct (write_csv_row _ _ _ _) as [w|e] eqn:Hw;
          intros E; injection E as <- <-.
        -- apply write_csv_row_encode in Hw. subst w.
           destruct (rows_so_far_rotate os a
                       (count_row (count_line st)
                          (writerow (out_file (count_line st)) (encode a obj))))
             as [Hr Hn].
           destruct (rotate_counters os a
                       (count_row (count_line st)
                          (writerow (out_file (count_line st)) (encode a obj))))
             as [_ Hk].
           split; [apply Hn; cbn; now destruct (sink_rows (out_file st))|].
           split.
           ++ rewrite Hr. exact (rows_so_far_row (count_line st) _ Hh).
           ++ rewrite Hk. cbn. lia.
        -- cbn. repeat split. exact Hh.
      * intros E. injection E as <- <-. cbn. rewrite app_nil_r.
        repeat split; try lia. exact Hh.
      * intros E. injection E as <- <-. cbn. repeat split. exact Hh.
    + destruct e; intros E; injection E as <- <-; cbn;
        rewrite ?app_nil_r; repeat split; try lia; exact Hh.
Qed.

(** A loop that reaches the end of its lines has written the rows of the
    accepted documents, in order. *)
Lemma loop_rows (lines : list string) (st st' : state) :
  sink_rows (out_file st) <> [] ->
  loop os a (map lower (contains a)) (nodup string_dec (as_datetime a))
    st lines = (st', None) ->
  rows_so_far st' = (rows_so_far st ++ map (encode a) (accepted a lines))%list
  /\ kept st' = kept st + Z.of_nat (List.length (accepted a lines)).
Proof.
  revert st. induction lines as [|line lines IH]; intros st Hh; cbn [loop].
  - intros E. injection E as <-. cbn. rewrite app_nil_r. split; [reflexivity|lia].
  - destruct (iteration os a _ _ st line) as [st1 [e|]] eqn:Hit; [discriminate|].
    intros E. destruct (iteration_rows _ _ _ _ Hh Hit) as (Hh1 & Hr1 & Hk1).
    destruct (IH st1 Hh1 E) as [Hr Hk].
    rewrite accepted_cons, map_app, length_app, app_assoc, <- Hr1.
    split; [exact Hr|lia].
Qed.

(** Any loop, interrupted or not, only adds rows after those that are
    there, as many as it adds to [kept]. *)
Lemma loop_appends (lines : list string) (st st' : state) (r : option exn) :
  sink_rows (out_file st) <> [] ->
  loop os a (map lower (contains a)) (nodup string_dec (as_datetime a))
    st lines = (st', r) ->
  sink_rows (out_file st') <> []
  /\ exists new,
       rows_so_far st' = (rows_so_far st ++ new)%list
       /\ kept st' = kept st + Z.of_nat (List.length new).
Proof.
  revert st. induction lines as [|line lines IH]; intros st Hh; cbn [loop].
  - intros E. injection E as <- <-. split; [exact Hh|]. exists [].
    rewrite app_nil_r. split; [reflexivity|cbn; lia].
  - destruct (iteration os a _ _ st line) as [st1 [e|]] eqn:Hit.
    + intros E. injection E as <- <-.
      destruct (iteration_rows _ _ _ _ Hh Hit) as (Hh1 & Hr1 & Hk1).
      split; [exact Hh1|]. exists []. rewrite app_nil_r, Hr1, Hk1.
      split; [reflexivity|cbn; lia].
    + intros E. destruct (iteration_rows _ _ _ _ Hh Hit) as (Hh1 & Hr1 & Hk1).
      destruct (IH st1 Hh1 E) as (Hh' & new & Hr & Hk).
      split; [exact Hh'|].
      exists (map (encode a) (accepted a [line]) ++ new)%list.
      rewrite Hr, Hr1, app_assoc, length_app, length_map.
      split; [reflexivity|lia].
Qed.
End RowsOfRun.

Lemma initial_headed (os : platform) (a : args) :
  sink_rows (out_file (initial os a)) <> [].
Proof.
  discriminate.
Qed.

Lemma initial_rows (os : platform) (a : args) : rows_so_far (initial os a) = [].
Proof.
  reflexivity.
Qed.

Section CountersOfRun.
Context {L : PyLib}.
Variables (os : platform) (a : args) (dts : list string).

Lemma iteration_counters (terms : list string) (st st' : state)
    (line : string) (r : option exn) :
  iteration os a terms dts st line = (st', r) ->
  total st' = total st + 1 /\ kept st <= kept st' <= kept st + 1.
Proof.
  destruct (blank line) eqn:Hb.
  - rewrite iteration_blank by exact Hb. intros E. injection E as <- <-.
    cbn. lia.
  - rewrite iteration_text by exact Hb.
    destruct (json_loads line) as [obj|e].
    + destruct (passes a _ obj) as [[|]|e].
      * destruct (write_csv_row _ _ _ _) as [x|e]; intros E;
          injection E as <- <-.
        -- destruct (rotate_counters os a (count_row (count_line st) x))
             as [-> ->].
           cbn. lia.
        -- cbn. lia.
      * intros E. injection E as <- <-. cbn. lia.
      * intros E. injection E as <- <-. cbn. lia.
    + destruct e; intros E; injection E as <- <-; cbn; lia.
Qed.

(** However a loop ends, it has counted the lines it read, at most all
    of them, and kept no more rows than it counted lines. *)
Lemma loop_counters_bounded (terms : list string) (lines : list string)
    (st st' : state) (r : option exn) :
  loop os a terms dts st lines = (st', r) ->
  total st <= total st' <= total st + Z.of_nat (List.length lines)
  /\ kept st <= kept st'
  /\ kept st' - kept st <= total st' - total st
  /\ (r = None -> total st' = total st + Z.of_nat (List.length lines)).
Proof.
  revert st. induction lines as [|line lines IH]; intros st; cbn [loop].
  - intros E. injection E as <- <-. cbn. lia.
  - destruct (iteration os a _ dts st line) as [st1 [e|]] eqn:Hit.
    + intros E. injection E as <- <-.
      destruct (iteration_counters _ _ _ _ _ Hit) as [Ht Hk].
      cbn [List.length]. repeat split; try lia. intros H. discriminate H.
    + intros E. destruct (IH st1 E) as (Ht' & Hk' & Hd' & Hn').
      destruct (iteration_counters _ _ _ _ _ Hit) as [Ht Hk].
      cbn [List.length]. repeat split; try lia.
      intros ->. specialize (Hn' eq_refl). lia.
Qed.
End CountersOfRun.

(** X1.  In a run that reaches its end, the data rows of the files are,
    in input order, the rows of the documents that decode and pass the
    filters: no other row is written and none is left out; the counts
    reported are the number of lines and the number of those documents. *)
Theorem completed_run_writes_accepted_records {L : PyLib}
    (w : world) (a : args) (evs : list io_event) (lines : list string) :
  open_any w (input a) = (evs, Ok lines) ->
  raised (main w a) = None ->
  all_data_rows (main w a) = map (encode a) (accepted a lines)
  /\ report (main w a)
     = Some (Z.of_nat (List.length lines),
             Z.of_nat (List.length (accepted a lines))).
Proof.
  intros Hopen. unfold all_data_rows, files, main. rewrite Hopen.
  destruct (loop _ a _ _ _ lines) as [st [e|]] eqn:Hloop; cbn [raised];
    [discriminate|]. intros _. cbn [final report].
  destruct (loop_rows _ _ _ _ _ (initial_headed _ _) Hloop) as [Hr Hk].
  destruct (loop_counters_bounded _ _ _ _ _ _ _ _ Hloop) as (_ & _ & _ & Ht).
  cbn [initial total kept] in Hk, Ht. rewrite (Ht eq_refl), Hk.
  split; [exact Hr|reflexivity].
Qed.

Lemma completed_run_writes_accepted_records_witness :
  all_data_rows (sample_run (args_contains ["gme"])
                   [ln doc_body_gme; ln ""; ln doc_created; ln doc_truncated])
  = map (encode (L:=sample_lib) (args_contains ["gme"]))
      (accepted (L:=sample_lib) (args_contains ["gme"])
         [ln doc_body_gme; ln ""; ln doc_created; ln doc_truncated])
  /\ report (sample_run (args_contains ["gme"])
               [ln doc_body_gme; ln ""; ln doc_created; ln doc_truncated])
     = Some (4, 1).
Proof.
  apply (@completed_run_writes_accepted_records sample_lib
           (sample_world [ln doc_body_gme; ln ""; ln doc_created; ln doc_truncated])
           (args_contains ["gme"]) [OpenFile "in.ndjson" Plain]
           [ln doc_body_gme; ln ""; ln doc_created; ln doc_truncated]);
    reflexivity.
Defined.

(** X2.  In every run, ended by an exception or not, the counter of kept
    rows is the number of data rows in the files of the run, it is at
    most the counter of lines, and the counter of lines is at most the
    number of lines of the input. *)
Theorem kept_is_the_number_of_rows_written {L : PyLib}
    (w : world) (a : args) :
  Z.of_nat (List.length (all_data_rows (main w a))) = kept (final (main w a))
  /\ 0 <= kept (final (main w a)) <= total (final (main w a))
  /\ forall evs lines,
       open_any w (input a) = (evs, Ok lines) ->
       total (final (main w a)) <= Z.of_nat (List.length lines).
Proof.
  unfold all_data_rows, files, main.
  destruct (open_any w (input a)) as [evs [fin|e]].
  - destruct (loop _ a _ _ _ fin) as [st r] eqn:Hloop.
    destruct (loop_appends _ _ _ _ _ _ (initial_headed _ _) Hloop)
      as (_ & new & Hr & Hk).
    destruct (loop_counters_bounded _ _ _ _ _ _ _ _ Hloop) as (Ht & Hk1 & Hd & _).
    cbn [initial total kept] in *.
    assert (Hrows : Z.of_nat (List.length (rows_so_far st)) = kept st)
      by (rewrite Hr, Hk; reflexivity).
    destruct r; cbn [final]; (split; [exact Hrows|]); (split; [lia|]);
      intros evs' lines E; injection E as _ <-; lia.
  - cbn. repeat split; try lia; intros evs' lines E; discriminate E.
Qed.

(** X3.  Output is only ever appended to: when the run on an input
    reaches its end, the run on that input followed by more lines writes
    the same data rows first, whatever the further lines hold and
    however that longer run ends. *)
Theorem rows_of_a_prefix_come_first {L : PyLib}
    (w w' : world) (a : args) (evs evs' : list io_event)
    (lines more : list string) :
  os_name w' = os_name w ->
  open_any w (input a) = (evs, Ok lines) ->
  open_any w' (input a) = (evs', Ok (lines ++ more)%list) ->
  raised (main w a) = None ->
  exists rows,
    all_data_rows (main w' a) = (all_data_rows (main w a) ++ rows)%list.
Proof.
  intros Hos Hopen Hopen'. unfold all_data_rows, files, main.
  rewrite Hopen, Hopen', Hos.
  destruct (loop _ a _ _ _ lines) as [st [e|]] eqn:Hloop; cbn [raised];
    [discriminate|]. intros _. rewrite loop_app, Hloop.
  destruct (loop_appends _ _ _ _ _ _ (initial_headed _ _) Hloop) as (Hh & _).
  destruct (loop _ a _ _ st more) as [st' r] eqn:Hmore.
  destruct (loop_appends _ _ _ _ _ _ Hh Hmore) as (_ & new & Hr & _).
  exists new. destruct r; cbn [final]; exact Hr.
Qed.

Lemma rows_of_a_prefix_come_first_witness :
  exists rows,
    all_data_rows (sample_run (default_args "in.ndjson" "out.csv")
                     [ln doc_created; ln doc_empty_object; ln doc_one;
                      ln doc_created])
    = (all_data_rows (sample_run (default_args "in.ndjson" "out.csv")
                        [ln doc_created; ln doc_empty_object]) ++ rows)%list.
Proof.
  apply (@rows_of_a_prefix_come_first sample_lib
           (sample_world [ln doc_created; ln doc_empty_object])
           (sample_world [ln doc_created; ln doc_empty_object; ln doc_one;
                          ln doc_created])
           (default_args "in.ndjson" "out.csv")
           [OpenFile "in.ndjson" Plain] [OpenFile "in.ndjson" Plain]
           [ln doc_created; ln doc_empty_object] [ln doc_one; ln doc_created]);
    reflexivity.
Defined.

Lemma kept_is_the_number_of_rows_written_witness :
  Z.of_nat (List.length
              (all_data_rows (sample_run (args_max_rows "out.csv" 2)
                                [ln doc_created; ln doc_empty_object;
                                 ln doc_created; ln doc_one; ln doc_created])))
  = 3
  /\ total (final (sample_run (args_max_rows "out.csv" 2)
                     [ln doc_created; ln doc_empty_object;
                      ln doc_created; ln doc_one; ln doc_created]))
     <= 5.
Proof.
  destruct (@kept_is_the_number_of_rows_written sample_lib
              (sample_world [ln doc_created; ln doc_empty_object;
                             ln doc_created; ln doc_one; ln doc_created])
              (args_max_rows "out.csv" 2)) as (H1 & _ & H3).
  split.
  - exact H1.
  - exact (H3 [OpenFile "in.ndjson" Plain]
              [ln doc_created; ln doc_empty_object;
               ln doc_created; ln doc_one; ln doc_created] eq_refl).
Defined.

(** ** Rotation does not change what is written *)

Section RotationFree.
Context {L : PyLib}.
Variables (os : platform) (a : args) (out : string) (n : Z).
Variables (terms dts : list string).

Lemma in_step_count_line (st1 st2 : state) :
  in_step st1 st2 -> in_step (count_line st1) (count_line st2).
Proof.
  intros (Ht & Hk & Hr & H1 & H2). unfold in_step. cbn.
  repeat split; try assumption. lia.
Qed.

Lemma in_step_row (st1 st2 : state) (row : list string) :
  in_step st1 st2 ->
  in_step (rotate os a (count_row st1 (writerow (out_file st1) row)))
    (rotate os (with_rotation a out n)
       (count_row st2 (writerow (out_file st2) row))).
Proof.
  intros (Ht & Hk & Hr & H1 & H2).
  destruct (rows_so_far_rotate os a
              (count_row st1 (writerow (out_file st1) row))) as [Hr1 Hn1].
  destruct (rows_so_far_rotate os (with_rotation a out n)
              (count_row st2 (writerow (out_file st2) row))) as [Hr2 Hn2].
  destruct (rotate_counters os a
              (count_row st1 (writerow (out_file st1) row))) as [Ht1 Hk1].
  destruct (rotate_counters os (with_rotation a out n)
              (count_row st2 (writerow (out_file st2) row))) as [Ht2 Hk2].
  unfold in_step. rewrite Ht1, Ht2, Hk1, Hk2, Hr1, Hr2.
  rewrite (rows_so_far_row st1 row H1), (rows_so_far_row st2 row H2), Hr.
  cbn [count_row total kept]. repeat split; try lia.
  - apply Hn1. cbn. now destruct (sink_rows (out_file st1)).
  - apply Hn2. cbn. now destruct (sink_rows (out_file st2)).
Qed.

Lemma iteration_rotation_free (st1 st2 : state) (line : string) :
  in_step st1 st2 ->
  snd (iteration os a terms dts st1 line)
  = snd (iteration os (with_rotation a out n) terms dts st2 line)
  /\ in_step (fst (iteration os a terms dts st1 line))
       (fst (iteration os (with_rotation a out n) terms dts st2 line)).
Proof.
  intros H. pose proof (in_step_count_line _ _ H) as Hc.
  destruct (blank line) eqn:Hb.
  - rewrite !iteration_blank by exact Hb. now split.
  - rewrite !iteration_text by exact Hb.
    change (passes (with_rotation a out n)) with (passes a).
    change (fields (with_rotation a out n)) with (fields a).
    destruct (json_loads line) as [obj|e].
    + destruct (passes a terms obj) as [[|]|e]; try (now split).
      unfold write_csv_row.
      destruct (build_row obj dts (fields a) []) as [row|e]; cbn [bind fst snd];
        [|now split].
      split; [reflexivity|]. exact (in_step_row _ _ row Hc).
    + destruct e; now split.
Qed.

Lemma loop_rotation_free (lines : list string) (st1 st2 : state) :
  in_step st1 st2 ->
  snd (loop os a terms dts st1 lines)
  = snd (loop os (with_rotation a out n) terms dts st2 lines)
  /\ in_step (fst (loop os a terms dts st1 lines))
       (fst (loop os (with_rotation a out n) terms dts st2 lines)).
Proof.
  revert st1 st2. induction lines as [|line lines IH]; intros st1 st2 H;
    cbn [loop]; [now split|].
  destruct (iteration_rotation_free st1 st2 line H) as [Hr Hs].
  destruct (iteration os a terms dts st1 line) as [s1 r1].
  destruct (iteration os (with_rotation a out n) terms dts st2 line) as [s2 r2].
  cbn [fst snd] in Hr, Hs. subst r2. destruct r1 as [e|].
  - now split.
  - now apply IH.
Qed.
End RotationFree.


(** ** The files as tables *)

Section Tables.
Context {L : PyLib}.
Variables (os : platform) (a : args) (terms dts : list string).

Lemma table_new (idx : option Z) : table_of a (make_writer os a idx).
Proof.
  unfold table_of, make_writer. cbn [sink_rows hd_error]. split; [reflexivity|].
  constructor; [reflexivity|constructor].
Qed.

Lemma table_row (s : sink) (row : list string) :
  table_of a s -> List.length row = List.length (fields a) ->
  table_of a (writerow s row).
Proof.
  intros [Hh Hr] Hl. unfold table_of, writerow. cbn [sink_rows]. split.
  - destruct (sink_rows s); [discriminate|exact Hh].
  - apply Forall_app. split; [exact Hr|]. constructor; [exact Hl|constructor].
Qed.

Lemma tables_iteration (st st' : state) (line : string) (r : option exn) :
  Forall (table_of a) (closed st ++ [out_file st]) ->
  iteration os a terms dts st line = (st', r) ->
  Forall (table_of a) (closed st' ++ [out_file st']).
Proof.
  intros H. destruct (blank line) eqn:Hb.
  - rewrite iteration_blank by exact Hb. intros E. now injection E as <- <-.
  - rewrite iteration_text by exact Hb.
    destruct (json_loads line) as [obj|e].
    + destruct (passes a terms obj) as [[|]|e];
        try (intros E; now injection E as <- <-).
      unfold write_csv_row.
      destruct (build_row obj dts (fields a) []) as [row|e] eqn:Hrow;
        cbn [bind]; intros E; injection E as <- <-; [|exact H].
      apply build_row_length in Hrow. cbn [List.length Nat.add] in Hrow.
      apply Forall_app in H. destruct H as [Hc Ho].
      inversion Ho as [|? ? Ho1 _]; subst.
      unfold rotate. destruct (_ && _); cbn [closed out_file count_row count_line].
      * rewrite <- app_assoc. apply Forall_app. split; [exact Hc|].
        constructor; [now apply table_row|].
        constructor; [apply table_new|constructor].
      * apply Forall_app. split; [exact Hc|].
        constructor; [now apply table_row|constructor].
    + destruct e; intros E; now injection E as <- <-.
Qed.

Lemma tables_loop (lines : list string) (st st' : state) (r : option exn) :
  Forall (table_of a) (closed st ++ [out_file st]) ->
  loop os a terms dts st lines = (st', r) ->
  Forall (table_of a) (closed st' ++ [out_file st']).
Proof.
  revert st. induction lines as [|line lines IH]; intros st H; cbn [loop].
  - intros E. now injection E as <- <-.
  - destruct (iteration os a terms dts st line) as [st1 [e|]] eqn:Hit.
    + intros E. injection E as <- <-. exact (tables_iteration _ _ _ _ H Hit).
    + apply IH. exact (tables_iteration _ _ _ _ H Hit).
Qed.
End Tables.

(** X5.  Every file of every run, with or without rotation and however
    the run ends, is a table for the field list: its first row is the
    header, and every row in it has exactly as many cells as there are
    fields. *)
Theorem every_file_is_a_table {L : PyLib} (w : world) (a : args) :
  Forall (fun s =>
            hd_error (sink_rows s) = Some (fields a)
            /\ Forall (fun row => List.length row = List.length (fields a))
                 (sink_rows s))
    (files (main w a)).
Proof.
  change (Forall (table_of a) (files (main w a))).
  assert (H0 : Forall (table_of a)
                 (closed (initial (os_name w) a)
                  ++ [out_file (initial (os_name w) a)]))
    by (constructor; [apply table_new|constructor]).
  unfold files, main. destruct (open_any w (input a)) as [evs [fin|e]].
  - destruct (loop _ a _ _ _ fin) as [st r] eqn:Hloop.
    pose proof (tables_loop _ _ _ _ _ _ _ _ H0 Hloop) as H.
    destruct r; exact H.
  - exact H0.
Qed.

(** ** Without rotation *)

Section Unsplit.
Context {L : PyLib}.
Variables (os : platform) (a : args) (terms dts : list string).
Hypothesis no_rotation : max_rows_per_file a <= 0.

Lemma rotate_off (st : state) : rotate os a st = st.
Proof.
  unfold rotate. destruct (Z.ltb_spec 0 (max_rows_per_file a)); [lia|reflexivity].
Qed.

Lemma unsplit_initial : unsplit a (initial os a).
Proof.
  unfold unsplit, initial.
  destruct (Z.leb_spec (max_rows_per_file a) 0); [|lia].
  destruct (Z.ltb_spec 0 (max_rows_per_file a)); [lia|].
  repeat split.
Qed.

Lemma unsplit_iteration (st st' : state) (line : string) (r : option exn) :
  unsplit a st -> iteration os a terms dts st line = (st', r) -> unsplit a st'.
Proof.
  intros H. destruct (blank line) eqn:Hb.
  - rewrite iteration_blank by exact Hb. intros E. now injection E as <- <-.
  - rewrite iteration_text by exact Hb.
    destruct (json_loads line) as [obj|e].
    + destruct (passes a terms obj) as [[|]|e];
        try (intros E; now injection E as <- <-).
      destruct (write_csv_row _ _ _ _) as [x|e] eqn:Hw;
        intros E; injection E as <- <-; [|exact H].
      destruct (write_csv_row_appends _ _ _ _ _ Hw) as [row ->].
      rewrite rotate_off. exact H.
    + destruct e; intros E; now injection E as <- <-.
Qed.

Lemma unsplit_loop (lines : list string) (st st' : state) (r : option exn) :
  unsplit a st -> loop os a terms dts st lines = (st', r) -> unsplit a st'.
Proof.
  revert st. induction lines as [|line lines IH]; intros st H; cbn [loop].
  - intros E. now injection E as <- <-.
  - destruct (iteration os a terms dts st line) as [st1 [e|]] eqn:Hit.
    + intros E. injection E as <- <-. exact (unsplit_iteration _ _ _ _ H Hit).
    + apply IH. exact (unsplit_iteration _ _ _ _ H Hit).
Qed.
End Unsplit.

Lemma unsplit_main {L : PyLib} (w : world) (a : args) :
  max_rows_per_file a <= 0 -> unsplit a (final (main w a)).
Proof.
  intros Hn. unfold main. destruct (open_any w (input a)) as [evs [fin|e]].
  - destruct (loop _ a _ _ _ fin) as [st r] eqn:Hloop.
    pose proof (unsplit_loop _ _ _ _ Hn _ _ _ _
                  (unsplit_initial _ _ Hn) Hloop) as H.
    destruct r; exact H.
  - exact (unsplit_initial _ _ Hn).
Qed.

(** X6.  With a threshold of 0 or less the run writes one file and no
    other: it is at the output path exactly as given, no part number is
    ever set, and the file holds the header followed by every data row
    of the run. *)
Theorem without_rotation_one_file {L : PyLib} (w : world) (a : args) :
  max_rows_per_file a <= 0 ->
  files (main w a) = [out_file (final (main w a))]
  /\ sink_path (out_file (final (main w a))) = output a
  /\ part_idx (final (main w a)) = None
  /\ sink_rows (out_file (final (main w a)))
     = fields a :: all_data_rows (main w a).
Proof.
  intros Hn.
  pose proof (unsplit_main w a Hn) as Hu.
  assert (Ht : Forall (table_of a) (files (main w a))).
  { assert (H0 : Forall (table_of a)
                   (closed (initial (os_name w) a)
                    ++ [out_file (initial (os_name w) a)]))
      by (constructor; [apply table_new|constructor]).
    unfold files, main. destruct (open_any w (input a)) as [evs [fin|e]].
    - destruct (loop _ a _ _ _ fin) as [st r] eqn:Hloop.
      pose proof (tables_loop _ _ _ _ _ _ _ _ H0 Hloop) as H.
      destruct r; exact H.
    - exact H0. }
  destruct Hu as (Hc & Hp & Hpath).
  unfold all_data_rows, files in *. rewrite Hc in *. cbn [app flat_map] in *.
  rewrite app_nil_r. inversion Ht as [|? ? [Hh _] _]; subst.
  repeat split; try assumption.
  unfold data_rows. destruct (sink_rows (out_file (final (main w a))));
    [discriminate|]. cbn in Hh |- *. now injection Hh as ->.
Qed.

Lemma without_rotation_one_file_witness :
  files (sample_run (default_args "in.ndjson" "wsb.csv")
           [ln doc_created; ln doc_one; ln doc_created])
  = [{| sink_path := "wsb.csv";
        sink_rows := [["id"; "author"; "body"; "score"; "created_utc"];
                      [""; ""; ""; ""; "1600000000"]] |}].
Proof.
  destruct (@without_rotation_one_file sample_lib
              (sample_world [ln doc_created; ln doc_one; ln doc_created])
              (default_args "in.ndjson" "wsb.csv")) as (H1 & _).
  - cbn. lia.
  - unfold sample_run. rewrite H1. reflexivity.
Defined.

(** ** With rotation *)

(** X7.  With a threshold [t] above 0, at the end of every run and for
    any number of kept rows: there are [kept / t + 1] files, each of
    them but the last holds exactly [t] data rows, and the last holds
    the remaining [kept mod t]. *)
Theorem rotation_fills_parts_in_order {L : PyLib} (w : world) (a : args) :
  0 < max_rows_per_file a ->
  Z.of_nat (List.length (files (main w a)))
  = kept (final (main w a)) / max_rows_per_file a + 1
  /\ Forall (fun s => Z.of_nat (List.length (data_rows s)) = max_rows_per_file a)
       (closed (final (main w a)))
  /\ Z.of_nat (List.length (data_rows (out_file (final (main w a)))))
     = kept (final (main w a)) mod max_rows_per_file a.
Proof.
  intros Ht.
  destruct (rotating_main w a Ht) as [_ _ _ H4 (data & H5 & H5') H6 H7].
  set (t := max_rows_per_file a) in *.
  set (c := Z.of_nat (List.length (closed (final (main w a))))) in *.
  set (r := rows_in_current (final (main w a))) in *.
  assert (Hq : kept (final (main w a)) / t = c)
    by (symmetry; apply (Z.div_unique _ t c r); lia).
  assert (Hm : kept (final (main w a)) mod t = r)
    by (symmetry; apply (Z.mod_unique _ t c r); lia).
  rewrite Hq, Hm. repeat split.
  - unfold files. rewrite length_app. cbn [List.length]. lia.
  - eapply Forall_impl; [|exact H4]. intros s (dat & E & El).
    unfold data_rows. now rewrite E.
  - unfold data_rows. now rewrite H5.
Qed.

Lemma rotation_fills_parts_in_order_witness :
  Z.of_nat (List.length
              (files (sample_run (args_max_rows "out.csv" 3)
                        [ln doc_created; ln doc_created; ln doc_created;
                         ln doc_created; ln doc_created; ln doc_created;
                         ln doc_created])))
  = 3.
Proof.
  apply (@rotation_fills_parts_in_order sample_lib
           (sample_world [ln doc_created; ln doc_created; ln doc_created;
                          ln doc_created; ln doc_created; ln doc_created;
                          ln doc_created])
           (args_max_rows "out.csv" 3)).
  reflexivity.
Defined.

(** ** Part numbers can be read back *)

Lemma append_length (x y : string) :
  String.length (x ++ y) = (String.length x + String.length y)%nat.
Proof.
  induction x as [|c x IH]; cbn; [reflexivity|now rewrite IH].
Qed.

Lemma append_cancel_l (p x y : string) : p ++ x = p ++ y -> x = y.
Proof.
  induction p as [|c p IH]; cbn; [easy|]. intros E. injection E as E. auto.
Qed.

Lemma append_cancel_r (x y e : string) : x ++ e = y ++ e -> x = y.
Proof.
  revert y. induction x as [|c x IH]; intros [|d y] E.
  - reflexivity.
  - apply (f_equal String.length) in E. rewrite !append_length in E.
    cbn in E. lia.
  - apply (f_equal String.length) in E. rewrite !append_length in E.
    cbn in E. lia.
  - cbn in E. injection E as -> E. f_equal. now apply IH.
Qed.

Lemma uint_of_zeros (n : nat) (s : string) (d : Decimal.uint) :
  NilEmpty.uint_of_string s = Some d ->
  NilEmpty.uint_of_string (zeros n ++ s) = Some (leading_zeros n d).
Proof.
  intros H. induction n as [|n IH]; cbn [zeros append leading_zeros];
    [exact H|].
  cbn [NilEmpty.uint_of_string]. now rewrite IH.
Qed.

Lemma of_uint_leading_zeros (n : nat) (d : Decimal.uint) :
  Z.of_uint (leading_zeros n d) = Z.of_uint d.
Proof.
  induction n as [|n IH]; [reflexivity|exact IH].
Qed.

(** The decimal text of a number that is not negative: what it is as a
    list of digits, which is not empty and not a minus sign. *)
Lemma string_of_Z_digits (k : Z) :
  0 <= k ->
  exists d c rest,
    string_of_Z k = NilEmpty.string_of_uint d
    /\ Z.of_uint d = k
    /\ NilEmpty.string_of_uint d = String c rest
    /\ c <> "-"%char.
Proof.
  intros Hk. unfold string_of_Z.
  pose proof (DecimalZ.of_to k) as Hof.
  destruct k as [|p|p]; [| |lia].
  - exists (Decimal.D0 Decimal.Nil), "0"%char, EmptyString.
    repeat split. discriminate.
  - cbn [Z.to_int NilZero.string_of_int] in *.
    assert (Hn : Pos.to_uint p <> Decimal.Nil).
    { intros E. rewrite E in Hof. discriminate Hof. }
    exists (Pos.to_uint p).
    destruct (Pos.to_uint p) eqn:Eu; [congruence| | | | | | | | | | ];
      eexists; eexists; (split; [reflexivity|]);
      (split; [exact Hof|]); (split; [reflexivity|discriminate]).
Qed.

(** The number written by [format(k, "0Wd")] reads back as [k]. *)
Lemma decimal_value_format (w : nat) (k : Z) :
  0 <= k -> decimal_value (format_0d w k) = Some k.
Proof.
  intros Hk. unfold format_0d.
  destruct (Z.ltb_spec k 0) as [H|_]; [lia|].
  rewrite Z.abs_eq by exact Hk. cbn [append String.length].
  destruct (string_of_Z_digits k Hk) as (d & c & rest & Hs & Hd & Hc & Hm).
  rewrite Hs.
  set (n := (w - 0 - String.length (NilEmpty.string_of_uint d))%nat).
  pose proof (uint_of_zeros n _ d (NilEmpty.usu d)) as Hz.
  unfold decimal_value, NilZero.int_of_string, NilZero.uint_of_string.
  destruct n as [|n].
  - cbn [zeros append] in *. rewrite Hc in *.
    destruct (Ascii.eqb_spec c "-") as [E|_]; [contradiction|].
    rewrite Hz. cbn. now rewrite Hd.
  - cbn [zeros append] in *. cbn [Ascii.eqb Bool.eqb andb].
    rewrite Hz. cbn [option_map Z.of_int].
    rewrite (of_uint_leading_zeros (S n) d). now rewrite Hd.
Qed.

Lemma format_0d_injective (w : nat) (i j : Z) :
  0 <= i -> 0 <= j -> format_0d w i = format_0d w j -> i = j.
Proof.
  intros Hi Hj E. apply (f_equal decimal_value) in E.
  rewrite !decimal_value_format in E by assumption. now injection E.
Qed.

Lemma part_path_injective (os : platform) (out : string) (i j : Z) :
  0 <= i -> 0 <= j -> part_path os out i = part_path os out j -> i = j.
Proof.
  intros Hi Hj E. unfold part_path in E.
  apply append_cancel_l in E. apply (append_cancel_l "_part") in E.
  apply append_cancel_r in E. exact (format_0d_injective 4 i j Hi Hj E).
Qed.

Lemma NoDup_map_on {A B : Type} (f : A -> B) (l : list A) :
  (forall x y, In x l -> In y l -> f x = f y -> x = y) ->
  NoDup l -> NoDup (map f l).
Proof.
  intros Hf Hl. induction Hl as [|x l Hx Hl IH]; cbn [map]; constructor.
  - intros Hin. apply in_map_iff in Hin. destruct Hin as (y & E & Hy).
    assert (y = x) by (apply Hf; cbn; auto). subst y. contradiction.
  - apply IH. intros y z Hy Hz. apply Hf; cbn; auto.
Qed.

Lemma parts_distinct (n : nat) :
  NoDup (parts n) /\ forall k, In k (parts n) -> 1 <= k.
Proof.
  unfold parts. split.
  - apply NoDup_map_on; [|apply seq_NoDup]. intros x y _ _ E. lia.
  - intros k Hk. apply in_map_iff in Hk. destruct Hk as (i & <- & _). lia.
Qed.

(** X8.  A run that splits its output never opens the same path twice:
    the paths of its files are pairwise different, so no part is
    overwritten by a later one.  The number in a part path reads back,
    as a decimal, as the index of the part. *)
Theorem rotation_never_reopens_a_part {L : PyLib} (w : world) (a : args) :
  0 < max_rows_per_file a ->
  NoDup (map sink_path (files (main w a)))
  /\ forall k, 0 <= k -> decimal_value (format_0d 4 k) = Some k.
Proof.
  intros Ht. split; [|intros k Hk; now apply decimal_value_format].
  rewrite (files_paths w a Ht).
  destruct (parts_distinct (List.length (files (main w a)))) as [Hn Hp].
  apply NoDup_map_on; [|exact Hn].
  intros i j Hi Hj. apply part_path_injective.
  - specialize (Hp i Hi). lia.
  - specialize (Hp j Hj). lia.
Qed.

Lemma rotation_never_reopens_a_part_witness :
  NoDup (map sink_path
           (files (sample_run (args_max_rows "out.csv" 1)
                     [ln doc_created; ln doc_created; ln doc_created]))).
Proof.
  apply (@rotation_never_reopens_a_part sample_lib
           (sample_world [ln doc_created; ln doc_created; ln doc_created])
           (args_max_rows "out.csv" 1)).
  reflexivity.
Defined.

(** ** When a run ends early, and when it cannot *)

Lemma passes_time_total {L : PyLib} (a : args) (d : list (string * value)) :
  exists b, passes_time a (VDict d) = Ok b.
Proof.
  destruct (min_utc a) as [lo|] eqn:Hlo.
  - rewrite passes_time_dict by (left; congruence).
    destruct (py_float _); eauto.
  - destruct (max_utc a) as [hi|] eqn:Hhi.
    + rewrite passes_time_dict by (right; congruence).
      destruct (py_float _); eauto.
    + unfold passes_time. rewrite Hlo, Hhi. eauto.
Qed.

Lemma passes_total {L : PyLib} (a : args) (d : list (string * value)) :
  contains a = []
  \/ (text_or_empty d "body" <> None /\ text_or_empty d "title" <> None) ->
  exists b, passes a (map lower (contains a)) (VDict d) = Ok b.
Proof.
  intros H. unfold passes.
  assert (Hc : exists c, passes_contains (map lower (contains a)) (VDict d) = Ok c).
  { destruct (contains a) as [|t ts] eqn:Ht; [cbn; eauto|].
    destruct H as [H|[Hb Hti]]; [discriminate|].
    cbn [map]. rewrite passes_contains_dict.
    destruct (text_or_empty d "body"); [|congruence].
    destruct (text_or_empty d "title"); [|congruence]. eauto. }
  destruct Hc as [c ->]. cbn [bind]. destruct c; [|eauto].
  apply passes_time_total.
Qed.

Section Endings.
Context {L : PyLib}.
Variables (os : platform) (a : args).

(** A line that is blank, that fails to decode, or that holds an object
    with a body and a title the containment filter can read, does not
    end the loop. *)
Lemma iteration_completes (st : state) (line : string) :
  (blank line = false ->
   json_loads line = Raise JSONDecodeError
   \/ exists d, json_loads line = Ok (VDict d)
        /\ (contains a = []
            \/ (text_or_empty d "body" <> None
                /\ text_or_empty d "title" <> None))) ->
  snd (iteration os a (map lower (contains a))
         (nodup string_dec (as_datetime a)) st line) = None.
Proof.
  intros H. destruct (blank line) eqn:Hb.
  - now rewrite iteration_blank.
  - rewrite iteration_text by exact Hb.
    destruct (H eq_refl) as [->|(d & -> & Hd)]; [reflexivity|].
    destruct (passes_total a d Hd) as [b ->].
    destruct b; [|reflexivity]. now rewrite write_csv_row_dict.
Qed.

Lemma loop_completes (lines : list string) (st : state) :
  (forall line, In line lines -> blank line = false ->
     json_loads line = Raise JSONDecodeError
     \/ exists d, json_loads line = Ok (VDict d)
          /\ (contains a = []
              \/ (text_or_empty d "body" <> None
                  /\ text_or_empty d "title" <> None))) ->
  snd (loop os a (map lower (contains a))
         (nodup string_dec (as_datetime a)) st lines) = None.
Proof.
  revert st. induction lines as [|line lines IH]; intros st H; cbn [loop];
    [reflexivity|].
  pose proof (iteration_completes st line (H line (or_introl eq_refl))) as Hit.
  destruct (iteration os a _ _ st line) as [st1 r]. cbn [snd] in Hit. subst r.
  apply IH. intros l Hl. apply H. now right.
Qed.

(** The exceptions of one iteration, when the decoder raises nothing but
    its decode error. *)
Lemma iteration_raises (terms dts : list string) (st st' : state)
    (line : string) (e : exn) :
  (forall l e', json_loads l = Raise e' -> e' = JSONDecodeError) ->
  iteration os a terms dts st line = (st', Some e) ->
  e = AttributeError \/ e = TypeError.
Proof.
  intros Hj. destruct (blank line) eqn:Hb.
  - rewrite iteration_blank by exact Hb. discriminate.
  - rewrite iteration_text by exact Hb.
    destruct (json_loads line) as [obj|e'] eqn:Hl.
    + destruct (passes a terms obj) as [[|]|e'] eqn:Hp; try discriminate.
      * destruct (write_csv_row _ _ _ _) as [x|e'] eqn:Hw; try discriminate.
        intros E. injection E as _ <-. left.
        exact (write_csv_row_raises _ _ _ _ _ Hw).
      * intros E. injection E as _ <-. exact (passes_raises _ _ _ _ Hp).
    + rewrite (Hj line e' Hl). discriminate.
Qed.

Lemma loop_raises (terms dts : list string) (lines : list string)
    (st st' : state) (e : exn) :
  (forall l e', json_loads l = Raise e' -> e' = JSONDecodeError) ->
  loop os a terms dts st lines = (st', Some e) ->
  e = AttributeError \/ e = TypeError.
Proof.
  intros Hj. revert st. induction lines as [|line lines IH]; intros st;
    cbn [loop]; [discriminate|].
  destruct (iteration os a terms dts st line) as [st1 [e1|]] eqn:Hit.
  - intros E. injection E as _ <-. exact (iteration_raises _ _ _ _ _ _ Hj Hit).
  - apply IH.
Qed.

(** Lines that are blank or fail to decode leave the files as they are. *)
Lemma loop_skips (terms dts : list string) (lines : list string) (st : state) :
  (forall line, In line lines ->
     blank line = true \/ json_loads line = Raise JSONDecodeError) ->
  exists st',
    loop os a terms dts st lines = (st', None)
    /\ closed st' = closed st /\ out_file st' = out_file st
    /\ kept st' = kept st
    /\ total st' = total st + Z.of_nat (List.length lines).
Proof.
  revert st. induction lines as [|line lines IH]; intros st H.
  - exists st. cbn. repeat split. lia.
  - assert (Hit : iteration os a terms dts st line = (count_line st, None)).
    { destruct (blank line) eqn:Hb; [now apply iteration_blank|].
      rewrite iteration_text by exact Hb.
      destruct (H line (or_introl eq_refl)) as [E|E]; [congruence|].
      now rewrite E. }
    destruct (IH (count_line st) (fun l Hl => H l (or_intror Hl)))
      as (st' & Hloop & Hc & Ho & Hk & Ht).
    exists st'. cbn [loop]. rewrite Hit. split; [exact Hloop|].
    cbn [count_line closed out_file kept total List.length] in *.
    repeat split; try assumption. lia.
Qed.
End Endings.







(** ** What a row depends on *)

Lemma mem_iff (f : string) (l : list string) : mem f l = true <-> In f l.
Proof.
  unfold mem. rewrite existsb_exists. split.
  - intros (x & Hx & E). apply String.eqb_eq in E. now subst.
  - intros H. exists f. split; [exact H|apply String.eqb_refl].
Qed.

Lemma mem_same (f : string) (l l' : list string) :
  (forall x, In x l <-> In x l') -> mem f l = mem f l'.
Proof.
  intros H. destruct (mem f l) eqn:E, (mem f l') eqn:E'; try reflexivity.
  - apply mem_iff, H, mem_iff in E. congruence.
  - apply mem_iff, H, mem_iff in E'. congruence.
Qed.

Section RowDependence.
Context {L : PyLib}.

Lemma cell_same_names (obj : value) (dts dts' : list string) (f : string) :
  (forall x, In x dts <-> In x dts') -> cell obj dts f = cell obj dts' f.
Proof.
  intros H. unfold cell. now rewrite (mem_same f dts dts' H).
Qed.

Lemma build_row_same_names (obj : value) (dts dts' fields row : list string) :
  (forall x, In x dts <-> In x dts') ->
  build_row obj dts fields row = build_row obj dts' fields row.
Proof.
  intros H. revert row. induction fields as [|f fields IH]; intros row;
    cbn [build_row]; [reflexivity|].
  rewrite (cell_same_names obj dts dts' f H).
  destruct (cell obj dts' f); cbn [bind]; [apply IH|reflexivity].
Qed.

Lemma iteration_same_names (os : platform) (a : args) (dts' : list string)
    (terms : list string) (st : state) (line : string) :
  (forall x, In x (as_datetime a) <-> In x dts') ->
  iteration os (with_as_datetime a dts') terms (nodup string_dec dts') st line
  = iteration os a terms (nodup string_dec (as_datetime a)) st line.
Proof.
  intros H. unfold iteration.
  change (passes (with_as_datetime a dts')) with (passes a).
  change (fields (with_as_datetime a dts')) with (fields a).
  change (rotate os (with_as_datetime a dts')) with (rotate os a).
  unfold write_csv_row.
  assert (E : forall obj,
             build_row obj (nodup string_dec dts') (fields a) []
             = build_row obj (nodup string_dec (as_datetime a)) (fields a) []).
  { intros obj. apply build_row_same_names. intros x.
    rewrite !nodup_In. symmetry. apply H. }
  destruct (negb _); [reflexivity|].
  destruct (json_loads line) as [obj|e]; [|reflexivity].
  destruct (passes a terms obj) as [[|]|e]; try reflexivity.
  now rewrite E.
Qed.

Lemma loop_same_names (os : platform) (a : args) (dts' : list string)
    (terms : list string) (lines : list string) (st : state) :
  (forall x, In x (as_datetime a) <-> In x dts') ->
  loop os (with_as_datetime a dts') terms (nodup string_dec dts') st lines
  = loop os a terms (nodup string_dec (as_datetime a)) st lines.
Proof.
  intros H. revert st. induction lines as [|line lines IH]; intros st;
    cbn [loop]; [reflexivity|].
  rewrite (iteration_same_names os a dts' terms st line H).
  destruct (iteration os a terms _ st line) as [st1 [e|]];
    [reflexivity|apply IH].
Qed.
End RowDependence.

(** X12.  A run depends on the names given after [--as-datetime] only
    through which names are given: repeating a name or giving the names
    in another order changes nothing in the files, the counters, the
    report or the exception. *)
Theorem as_datetime_is_a_set {L : PyLib}
    (w : world) (a : args) (dts' : list string) :
  (forall x, In x (as_datetime a) <-> In x dts') ->
  main w (with_as_datetime a dts') = main w a.
Proof.
  intros H. unfold main.
  change (input (with_as_datetime a dts')) with (input a).
  change (contains (with_as_datetime a dts')) with (contains a).
  change (as_datetime (with_as_datetime a dts')) with dts'.
  change (initial (os_name w) (with_as_datetime a dts'))
    with (initial (os_name w) a).
  destruct (open_any w (input a)) as [evs [fin|e]]; [|reflexivity].
  now rewrite (loop_same_names (os_name w) a dts' _ fin _ H).
Qed.

Lemma as_datetime_is_a_set_witness :
  sample_run (with_as_datetime (args_as_datetime ["created_utc"; "edited"])
                ["edited"; "created_utc"; "edited"])
    [ln doc_created; ln doc_created_list]
  = sample_run (args_as_datetime ["created_utc"; "edited"])
      [ln doc_created; ln doc_created_list].
Proof.
  apply (@as_datetime_is_a_set sample_lib
           (sample_world [ln doc_created; ln doc_created_list])
           (args_as_datetime ["created_utc"; "edited"])
           ["edited"; "created_utc"; "edited"]).
  intros x. cbn. tauto.
Defined.

(** X13.  The row written for an object depends only on the values it
    has under the requested fields: two objects that agree on those
    fields give the same row, whatever other keys they hold and in
    whatever order. *)
Theorem row_depends_on_requested_fields_only {L : PyLib}
    (w : sink) (fields : list string) (d d' : list (string * value))
    (dts : list string) :
  (forall f, In f fields -> assoc f d = assoc f d') ->
  write_csv_row w fields (VDict d) dts = write_csv_row w fields (VDict d') dts.
Proof.
  intros H. rewrite !write_csv_row_dict. do 2 f_equal.
  apply map_ext_in. intros f Hf. unfold cell_text. now rewrite (H f Hf).
Qed.

Lemma row_depends_on_requested_fields_only_witness :
  write_csv_row (L:=sample_lib) {| sink_path := "out.csv"; sink_rows := [] |}
    ["id"; "score"]
    (VDict [("score", VInt 3); ("id", VStr "c1"); ("body", VStr "hello")])
    []
  = write_csv_row (L:=sample_lib) {| sink_path := "out.csv"; sink_rows := [] |}
      ["id"; "score"]
      (VDict [("id", VStr "c1"); ("author", VNone); ("score", VInt 3)])
      [].
Proof.
  apply (@row_depends_on_requested_fields_only sample_lib).
  intros f [<-|[<-|[]]]; reflexivity.
Defined.

(** ** What the containment filter finds *)

Lemma startswith_spec (p text : string) :
  startswith p text = true <-> exists post, text = p ++ post.
Proof.
  revert text. induction p as [|a p IH]; intros text; cbn [startswith append].
  - split; [intros _; now exists text|reflexivity].
  - destruct text as [|b text].
    + split; [discriminate|]. intros [post E]. discriminate E.
    + rewrite andb_true_iff, IH. split.
      * intros [E [post ->]]. apply Ascii.eqb_eq in E. subst b. now exists post.
      * intros [post E]. injection E as -> ->. split; [apply Ascii.eqb_refl|].
        now exists post.
Qed.

(** [term in text] holds exactly when [text] is some text, then [term],
    then some text. *)
Lemma str_in_spec (term text : string) :
  str_in term text = true <-> exists pre post, text = pre ++ term ++ post.
Proof.
  induction text as [|c text IH]; cbn [str_in].
  - rewrite orb_false_r, startswith_spec. split.
    + intros [post E]. now exists EmptyString, post.
    + intros (pre & post & E). destruct pre as [|x pre]; [|discriminate E].
      now exists post.
  - rewrite orb_true_iff, startswith_spec, IH. split.
    + intros [[post E]|(pre & post & E)].
      * now exists EmptyString, post.
      * exists (String c pre), post. cbn. now rewrite E.
    + intros (pre & post & E). destruct pre as [|x pre].
      * left. now exists post.
      * right. cbn in E. injection E as _ E. now exists pre, post.
Qed.

Lemma lower_append (x y : string) : lower (x ++ y) = lower x ++ lower y.
Proof.
  induction x as [|c x IH]; cbn; [reflexivity|now rewrite IH].
Qed.

Lemma passes_contains_text (raw : list string) (d : list (string * value))
    (body title : string) :
  raw <> [] ->
  text_or_empty d "body" = Some body ->
  text_or_empty d "title" = Some title ->
  passes_contains (map lower raw) (VDict d)
  = Ok (existsb (fun term => str_in term (lower (body ++ " " ++ title)))
          (map lower raw)).
Proof.
  intros Hr Hb Ht. destruct raw as [|r raw]; [congruence|].
  cbn [map]. now rewrite passes_contains_dict, Hb, Ht.
Qed.



(** X15.  For a record whose body and title are texts: an empty term
    keeps the record whatever the other terms are, and adding terms to
    the list never turns down a record that was kept. *)
Theorem more_terms_keep_more
    (raw more : list string) (d : list (string * value)) (body title : string) :
  text_or_empty d "body" = Some body ->
  text_or_empty d "title" = Some title ->
  (In "" raw -> passes_contains (map lower raw) (VDict d) = Ok true)
  /\ (passes_contains (map lower raw) (VDict d) = Ok true ->
      raw <> [] ->
      passes_contains (map lower (raw ++ more)) (VDict d) = Ok true).
Proof.
  intros Hb Ht. split.
  - intros Hin.
    assert (Hr : raw <> []) by (destruct raw; [contradiction|discriminate]).
    rewrite (passes_contains_text raw d body title Hr Hb Ht). f_equal.
    apply some_term_occurs. exists "". split; [exact Hin|].
    unfold occurs_ignoring_case. apply str_in_spec.
    now exists "", (lower (body ++ " " ++ title)).
  - intros H Hr.
    assert (Hr' : (raw ++ more)%list <> [])
      by (destruct raw; [congruence|discriminate]).
    rewrite (passes_contains_text raw d body title Hr Hb Ht) in H.
    rewrite (passes_contains_text _ d body title Hr' Hb Ht).
    assert (Hx : forall b : bool, @Ok bool b = Ok true -> b = true)
      by (intros b E; now injection E).
    apply Hx in H. f_equal. rewrite map_app, existsb_app, H. reflexivity.
Qed.

Lemma more_terms_keep_more_witness :
  passes_contains (map lower ["amc"; ""])
    (VDict [("body", VStr "To the Moon GME!")]) = Ok true.
Proof.
  apply (proj1 (more_terms_keep_more ["amc"; ""] []
                  [("body", VStr "To the Moon GME!")]
                  "To the Moon GME!" "" eq_refl eq_refl)).
  right. left. reflexivity.
Defined.

(** ** The time filter away from NaN *)

(** X16.  With a lower or an upper bound set, for a record whose
    timestamp field converts to a float that is not NaN, and bounds that
    are not NaN: the record is kept exactly when the timestamp is at or
    above the lower bound, if set, and at or below the upper bound, if
    set.  A record whose timestamp field is missing, or holds a value
    that does not convert, is turned down and no exception is raised. *)
Theorem time_filter_is_the_inclusive_range {L : PyLib}
    (a : args) (d : list (string * value)) :
  min_utc a <> None \/ max_utc a <> None ->
  (forall lo, min_utc a = Some lo -> is_nan lo = false) ->
  (forall hi, max_utc a = Some hi -> is_nan hi = false) ->
  (forall v ts,
     assoc (created_field a) d = Some v ->
     py_float v = Ok ts ->
     is_nan ts = false ->
     (passes_time a (VDict d) = Ok true
      <-> (forall lo, min_utc a = Some lo -> fle lo ts = true)
          /\ (forall hi, max_utc a = Some hi -> fle ts hi = true))
     /\ (passes_time a (VDict d) = Ok true
         \/ passes_time a (VDict d) = Ok false))
  /\ (assoc (created_field a) d = None
      \/ (exists v e, assoc (created_field a) d = Some v
                      /\ py_float v = Raise e) ->
      passes_time a (VDict d) = Ok false).
Proof.
  intros H Hlo Hhi. split.
  - intros v ts Hv Hf Hts. split.
    + now apply (time_filter_inclusive a d v ts).
    + rewrite passes_time_dict by exact H. rewrite Hv, Hf.
      destruct (negb _ && negb _); auto.
  - now apply time_filter_rejects_non_numeric.
Qed.

Lemma time_filter_is_the_inclusive_range_witness :
  passes_time (L:=sample_lib)
    {| input := "in"; output := "out"; fields := ["id"]; as_datetime := [];
       contains := [];
       min_utc := Some (f64_of_Z 1609459200);
       max_utc := Some (f64_of_Z 1640995200);
       created_field := "created_utc"; max_rows_per_file := 0 |}
    (VDict [("created_utc", VStr "1640995200")]) = Ok true
  /\ passes_time (L:=sample_lib)
       {| input := "in"; output := "out"; fields := ["id"]; as_datetime := [];
          contains := [];
          min_utc := Some (f64_of_Z 1609459200);
          max_utc := Some (f64_of_Z 1640995200);
          created_field := "created_utc"; max_rows_per_file := 0 |}
       (VDict [("created_utc", VStr "soon")]) = Ok false.
Proof.
  destruct (@time_filter_is_the_inclusive_range sample_lib
              {| input := "in"; output := "out"; fields := ["id"];
                 as_datetime := []; contains := [];
                 min_utc := Some (f64_of_Z 1609459200);
                 max_utc := Some (f64_of_Z 1640995200);
                 created_field := "created_utc"; max_rows_per_file := 0 |}
              [("created_utc", VStr "1640995200")]) as [H1 _].
  - left. discriminate.
  - intros lo E. injection E as <-. reflexivity.
  - intros hi E. injection E as <-. reflexivity.
  - destruct (@time_filter_is_the_inclusive_range sample_lib
                {| input := "in"; output := "out"; fields := ["id"];
                   as_datetime := []; contains := [];
                   min_utc := Some (f64_of_Z 1609459200);
                   max_utc := Some (f64_of_Z 1640995200);
                   created_field := "created_utc"; max_rows_per_file := 0 |}
                [("created_utc", VStr "soon")]) as [_ H2].
    + left. discriminate.
    + intros lo E. injection E as <-. reflexivity.
    + intros hi E. injection E as <-. reflexivity.
    + split.
      * apply (H1 (VStr "1640995200") (f64_of_Z 1640995200) eq_refl eq_refl eq_refl).
        split; intros x E; injection E as <-; reflexivity.
      * apply H2. right. exists (VStr "soon"), ValueError. split; reflexivity.
Defined.

(** ** Which codec [open_any] uses *)

(** X17.  [open_any] chooses the codec from the suffix of the path
    alone, letter case ignored: gzip for [.gz], zstd for [.zst], plain
    text otherwise.  When it returns a stream it has opened the given
    path, once, with that codec; when it raises, the exception is
    [ImportError] or [OSError] and it has opened nothing. *)
Theorem open_any_selects_codec_by_suffix (w : world) (path : string) :
  (forall suffix, endswith path suffix = true ->
     (lower suffix = ".gz" -> codec_of path = Gzip)
     /\ (lower suffix = ".zst" -> codec_of path = Zstd))
  /\ (endswith (lower path) ".gz" = false ->
      endswith (lower path) ".zst" = false -> codec_of path = Plain)
  /\ (forall lines,
        snd (open_any w path) = Ok lines ->
        fst (open_any w path) = [OpenFile path (codec_of path)]
        /\ file_lines w (codec_of path) path = Some lines)
  /\ (forall e,
        snd (open_any w path) = Raise e ->
        (forall p c, ~ In (OpenFile p c) (fst (open_any w path)))
        /\ (e = ImportError \/ e = OSError)).
Proof.
  split; [|split; [|split]].
  - intros suffix Hs. apply endswith_lower in Hs. unfold codec_of. split.
    + intros E. rewrite E in Hs. now rewrite Hs.
    + intros E. rewrite E in Hs. now rewrite (endswith_gz_not_zst _ Hs), Hs.
  - intros Hg Hz. unfold codec_of. now rewrite Hg, Hz.
  - intros lines. unfold open_any, codec_of, open_as.
    destruct (endswith (lower path) ".gz");
      [|destruct (endswith (lower path) ".zst");
        [destruct (zstandard_installed w)|]];
      try (destruct (file_lines w _ path); cbn [fst snd]; intros E;
           [injection E as <-; now split|discriminate E]).
    cbn [snd]. discriminate.
  - intros e. unfold open_any, open_as.
    destruct (endswith (lower path) ".gz");
      [|destruct (endswith (lower path) ".zst");
        [destruct (zstandard_installed w)|]];
      try (destruct (file_lines w _ path); cbn [fst snd]; intros E;
           [discriminate E
           |injection E as <-; split; [intros p c []|now right]]).
    cbn [fst snd]. intros E. injection E as <-.
    split; [intros p c [H|[H|[]]]; discriminate H|now left].
Qed.

Lemma open_any_selects_codec_by_suffix_witness :
  codec_of "C:/data/WSB.JSON.GZ" = Gzip
  /\ fst (open_any (sample_world [ln doc_created]) "C:/data/WSB.JSON.GZ")
     = [OpenFile "C:/data/WSB.JSON.GZ" Gzip].
Proof.
  destruct (open_any_selects_codec_by_suffix (sample_world [ln doc_created])
              "C:/data/WSB.JSON.GZ") as (H1 & _ & H3 & _).
  split.
  - apply (proj1 (H1 ".GZ" eq_refl)). reflexivity.
  - apply (proj1 (H3 [ln doc_created] eq_refl)).
Defined.

(** ** A formatted moment reads back *)

Lemma days_round_trip (n : Z) :
  days_from_civil (fst (fst (civil_from_days n)))
    (snd (fst (civil_from_days n))) (snd (civil_from_days n)) = n.
Proof.
  unfold civil_from_days, date_in_era, days_from_civil. cbn [fst snd].
  set (z := n + 719468).
  assert (Hdoe : 0 <= z mod 146097 < 146097) by (apply Z.mod_pos_bound; lia).
  assert (Hz : z = 146097 * (z / 146097) + z mod 146097)
    by (apply Z.div_mod; lia).
  set (doe := z mod 146097) in *. set (era := z / 146097) in *.
  clearbody doe era.
  set (yoe := (doe - doe / 1460 + doe / 36524 - doe / 146096) / 365).
  assert (Hy : 0 <= yoe <= 399
               /\ 0 <= doe - (365 * yoe + yoe / 4 - yoe / 100) <= 365)
    by (subst yoe; Z.div_mod_to_equations; lia).
  set (doy := doe - (365 * yoe + yoe / 4 - yoe / 100)) in *.
  assert (Hdoy : doe = 365 * yoe + yoe / 4 - yoe / 100 + doy)
    by (subst doy; lia).
  clearbody doy. clearbody yoe.
  set (mp := (5 * doy + 2) / 153).
  assert (Hmp : 0 <= mp <= 11 /\ 0 <= doy - (153 * mp + 2) / 5 <= 30)
    by (subst mp; Z.div_mod_to_equations; lia).
  clearbody mp.
  destruct (Z.ltb_spec mp 10);
    repeat match goal with
           | |- context [Z.leb ?x ?y] => destruct (Z.leb_spec x y)
           | |- context [Z.ltb ?x ?y] => destruct (Z.ltb_spec x y)
           end; try lia; Z.div_mod_to_equations; lia.
Qed.

(** The fields of the moment add up to the whole seconds of the float. *)
Lemma epoch_seconds_of_moment (ts : float) (sec us : Z) (dt : datetime) :
  timeval_of_float ts = Ok (sec, us) ->
  utcfromtimestamp ts = Ok dt ->
  epoch_seconds dt = sec /\ microsecond dt = us.
Proof.
  intros Htv. unfold utcfromtimestamp. rewrite Htv. cbn [bind].
  pose proof (days_round_trip (sec / 86400)) as Hd.
  destruct (civil_from_days (sec / 86400)) as [[y m] d]. cbn [fst snd] in Hd.
  destruct ((1 <=? y) && (y <=? 9999)); [|discriminate].
  intros E. injection E as <-. unfold epoch_seconds.
  cbn [year month day hour minute second microsecond]. rewrite Hd.
  split; [|reflexivity]. Z.div_mod_to_equations. lia.
Qed.

Lemma decimal_length (w : nat) (s : string) :
  decimal w s = true -> String.length s = w.
Proof.
  unfold decimal. intros H. apply andb_true_iff in H. now apply Nat.eqb_eq.
Qed.

Lemma two_chars (s : string) :
  String.length s = 2%nat -> exists a b, s = String a (String b EmptyString).
Proof.
  destruct s as [|a [|b [|c s]]]; try discriminate. intros _. now exists a, b.
Qed.

Lemma four_chars (s : string) :
  String.length s = 4%nat ->
  exists a b c d, s = String a (String b (String c (String d EmptyString))).
Proof.
  destruct s as [|a [|b [|c [|d [|e s]]]]]; try discriminate.
  intros _. now exists a, b, c, d.
Qed.

(** The text of a moment in range reads back as its seconds. *)
Lemma read_iso_strftime (dt : datetime) :
  0 <= year dt <= 9999 -> 0 <= month dt <= 99 -> 0 <= day dt <= 99 ->
  0 <= hour dt <= 99 -> 0 <= minute dt <= 99 -> 0 <= second dt <= 99 ->
  read_iso (strftime_iso dt) = Some (epoch_seconds dt).
Proof.
  intros Hy Hm Hd Hh Hmi Hs. unfold strftime_iso, read_iso, epoch_seconds.
  pose proof (decimal_value_format 4 (year dt) (proj1 Hy)) as Vy.
  pose proof (decimal_value_format 2 (month dt) (proj1 Hm)) as Vm.
  pose proof (decimal_value_format 2 (day dt) (proj1 Hd)) as Vd.
  pose proof (decimal_value_format 2 (hour dt) (proj1 Hh)) as Vh.
  pose proof (decimal_value_format 2 (minute dt) (proj1 Hmi)) as Vmi.
  pose proof (decimal_value_format 2 (second dt) (proj1 Hs)) as Vs.
  destruct (four_chars _ (decimal_length _ _ (format_0d_four _ Hy)))
    as (y1 & y2 & y3 & y4 & Ey).
  destruct (two_chars _ (decimal_length _ _ (format_0d_two _ Hm)))
    as (m1 & m2 & Em).
  destruct (two_chars _ (decimal_length _ _ (format_0d_two _ Hd)))
    as (d1 & d2 & Ed).
  destruct (two_chars _ (decimal_length _ _ (format_0d_two _ Hh)))
    as (h1 & h2 & Eh).
  destruct (two_chars _ (decimal_length _ _ (format_0d_two _ Hmi)))
    as (i1 & i2 & Ei).
  destruct (two_chars _ (decimal_length _ _ (format_0d_two _ Hs)))
    as (s1 & s2 & Es).
  rewrite Ey, Em, Ed, Eh, Ei, Es in *.
  cbn [append String.substring].
  now rewrite Vy, Vm, Vd, Vh, Vmi, Vs.
Qed.



(** ** The summary *)

Lemma group3_keeps_digits (n : nat) (l : list ascii) :
  (List.length l <= n)%nat ->
  Forall (fun c => c <> ","%char) l ->
  filter (fun c => negb (Ascii.eqb c ",")) (group3 l) = l.
Proof.
  revert l. induction n as [|n IH]; intros l Hl Hd.
  - destruct l; [reflexivity|cbn in Hl; lia].
  - destruct l as [|a [|b [|c [|d rest]]]];
      try (cbn [group3 filter];
           repeat match goal with
                  | H : Forall _ (_ :: _) |- _ =>
                      let E := fresh "E" in
                      inversion H as [|? ? E ?]; subst; clear H;
                      apply Ascii.eqb_neq in E; rewrite E
                  end; reflexivity).
    inversion Hd as [|? ? Ea Hd1]; subst.
    inversion Hd1 as [|? ? Eb Hd2]; subst.
    inversion Hd2 as [|? ? Ec Hd3]; subst.
    apply Ascii.eqb_neq in Ea, Eb, Ec.
    change (group3 (a :: b :: c :: d :: rest))
      with (a :: b :: c :: ","%char :: group3 (d :: rest)).
    cbn [filter]. rewrite Ea, Eb, Ec. cbn [negb Ascii.eqb Bool.eqb andb].
    do 3 f_equal. apply IH; [cbn in Hl |- *; lia|exact Hd3].
Qed.

Lemma uint_digits_no_comma (d : Decimal.uint) :
  Forall (fun c => c <> ","%char)
    (list_ascii_of_string (NilEmpty.string_of_uint d)).
Proof.
  induction d; cbn; constructor; try discriminate; assumption.
Qed.

Lemma without_commas_list (l : list ascii) :
  without_commas (string_of_list_ascii l)
  = string_of_list_ascii (filter (fun c => negb (Ascii.eqb c ",")) l).
Proof.
  induction l as [|c l IH]; cbn; [reflexivity|].
  destruct (Ascii.eqb c ","); cbn; now rewrite IH.
Qed.

Lemma filter_rev {A : Type} (p : A -> bool) (l : list A) :
  filter p (rev l) = rev (filter p l).
Proof.
  induction l as [|x l IH]; cbn; [reflexivity|].
  rewrite filter_app, IH. cbn. destruct (p x); cbn; [reflexivity|].
  now rewrite app_nil_r.
Qed.



Lemma part_path_text (os : platform) (out : string) (tail : string) :
  (let (base, ext) := splitext os out in
   base ++ "_part0001" ++ (if str_truthy ext then ext else ".csv") ++ tail)
  = part_path os out 1 ++ tail.
Proof.
  unfold part_path. destruct (splitext os out) as [base ext]. cbn [fst snd].
  change (format_0d 4 1) with "0001".
  rewrite !append_assoc. destruct ext; reflexivity.
Qed.

(** X20.  A run ended by an exception prints no summary.  A run that
    reaches its end prints two lines: the [Done.] line with the counts
    of the report, and a line that names the output.  Without rotation
    the second line names the path of the one file of the run; with
    rotation it names first the path of the first part of the run,
    written with the same number text [0001] that [make_writer] gives
    to part 1. *)
Theorem summary_names_the_output {L : PyLib} (w : world) (a : args) :
  (raised (main w a) <> None -> stdout (os_name w) a (main w a) = [])
  /\ (raised (main w a) = None ->
      report (main w a)
      = Some (total (final (main w a)), kept (final (main w a)))
      /\ (max_rows_per_file a <= 0 ->
          stdout (os_name w) a (main w a)
          = [ "Done. Read " ++ thousands (total (final (main w a)))
              ++ " lines; wrote " ++ thousands (kept (final (main w a)))
              ++ " rows to CSV(s).";
              "Output CSV: " ++ output a ]
          /\ map sink_path (files (main w a)) = [output a])
      /\ (0 < max_rows_per_file a ->
          (exists rest,
             stdout (os_name w) a (main w a)
             = [ "Done. Read " ++ thousands (total (final (main w a)))
                 ++ " lines; wrote " ++ thousands (kept (final (main w a)))
                 ++ " rows to CSV(s).";
                 "Output files look like: "
                 ++ part_path (os_name w) (output a) 1 ++ rest ])
          /\ hd_error (map sink_path (files (main w a)))
             = Some (part_path (os_name w) (output a) 1))).
Proof.
  split.
  - unfold stdout. destruct (raised (main w a)); [reflexivity|congruence].
  - intros Hr. unfold stdout, summary. rewrite Hr. split; [|split].
    + unfold main in *. destruct (open_any w (input a)) as [evs [fin|e]];
        [|discriminate Hr].
      destruct (loop _ a _ _ _ fin) as [st [e|]]; [discriminate Hr|reflexivity].
    + intros Hn. destruct (unsplit_main w a Hn) as (Hc & Hi & Hp).
      unfold files. rewrite Hi, Hp, Hc. cbn [map app]. now rewrite Hp.
    + intros Ht.
      destruct (rotating_main w a Ht) as [H1 H2 H3 _ _ _ _].
      rewrite H1.
      destruct (Z.eqb_spec (Z.of_nat (List.length (closed (final (main w a)))) + 1) 0)
        as [E|_]; [lia|]. cbn [negb].
      split.
      * pose proof (part_path_text (os_name w) (output a)) as Hp.
        destruct (splitext (os_name w) (output a)) as [base ext].
        eexists. rewrite <- Hp. reflexivity.
      * unfold files. rewrite map_app.
        destruct (closed (final (main w a))) as [|s rest] eqn:Hc.
        -- cbn [map app hd_error List.length] in *. now rewrite H3.
        -- cbn [map app hd_error List.length] in *.
           unfold parts in H2. rewrite <- cons_seq in H2. cbn [map] in H2.
           now injection H2 as -> _.
Qed.

Lemma summary_names_the_output_witness :
  stdout Posix (args_max_rows "wsb.csv" 1000)
    (sample_run (args_max_rows "wsb.csv" 1000) [ln doc_created; ln doc_created])
  = ["Done. Read 2 lines; wrote 2 rows to CSV(s).";
     "Output files look like: wsb_part0001.csv, wsb_part0002.csv, ..."]
  /\ hd_error (map sink_path
                 (files (sample_run (args_max_rows "wsb.csv" 1000)
                           [ln doc_created; ln doc_created])))
     = Some "wsb_part0001.csv".
Proof.
  split; [reflexivity|].
  destruct (@summary_names_the_output sample_lib
              (sample_world [ln doc_created; ln doc_created])
              (args_max_rows "wsb.csv" 1000)) as [_ H].
  destruct (H eq_refl) as (_ & _ & H3).
  destruct H3 as [_ H4]; [reflexivity|exact H4].
Defined.
